(** * KERALA-STRINGS: the registration server ([server.py])

    A shallow embedding of the Flask request handlers of [server.py] and
    of the part of the PostgreSQL connection they drive, followed by the
    properties of the handlers.

    Python values are modelled as follows: [str | None] is
    [option string], a value bound as an SQL parameter is a [value]
    ([None] is SQL NULL), a [dict] is a [gmap], the form ([MultiDict]) is
    an association list read by first match, and an exception raised
    inside a handler is a value of [exn] threaded through the small
    state-and-error monad [DB].

    The database engine is not part of the repository.  Its table is a
    list of rows with the rows of the open transaction kept apart, and
    what it answers to each call (carried out, or an exception) is a
    parameter, [server_behaviour], over which the properties quantify.
    Of the start-up code only its result is kept: the module is
    connected or it is not ([link]). *)

From Stdlib Require Import ZArith List Ascii String Bool Lia.
From stdpp Require Import base option list gmap strings fin_maps.

Import ListNotations.
Local Open Scope string_scope.
Local Open Scope Z_scope.
Local Open Scope list_scope.

(** ** Python values and helpers *)

(** What the handler binds as an SQL parameter: [None], an [int] or a
    [str]. *)
Inductive value :=
| VNone
| VInt (n : Z)
| VStr (s : string).

#[global] Instance value_eq_dec : EqDecision value.
Proof. solve_decision. Defined.

Definition of_str (o : option string) : value :=
  match o with
  | Some s => VStr s
  | None => VNone
  end.

Definition of_int (o : option Z) : value :=
  match o with
  | Some n => VInt n
  | None => VNone
  end.

(** [val is None] *)
Definition is_none (v : value) : bool :=
  match v with
  | VNone => true
  | _ => false
  end.

(** Truth value of a [str | None]: [None] and [''] are false. *)
Definition truthy (o : option string) : bool :=
  match o with
  | Some s => negb (String.eqb s "")
  | None => false
  end.

(** [a or b] on [str | None]. *)
Definition py_or (a b : option string) : option string :=
  if truthy a then a else b.

Infix "||?" := py_or (at level 51, right associativity).

(** [needle in hay] on strings. *)
Fixpoint contains (needle hay : string) : bool :=
  String.prefix needle hay
  || match hay with
     | EmptyString => false
     | String _ hay' => contains needle hay'
     end.

(** [sep.join(parts)] *)
Fixpoint join (sep : string) (parts : list string) : string :=
  match parts with
  | [] => ""
  | [p] => p
  | p :: rest => p +:+ sep +:+ join sep rest
  end.

(** ASCII lower-casing, the reading of SQL [LOWER] on the strings of the
    model. *)
Definition lower_ascii (c : ascii) : ascii :=
  let n := nat_of_ascii c in
  if ((65 <=? n) && (n <=? 90))%nat then ascii_of_nat (n + 32) else c.

Fixpoint lower (s : string) : string :=
  match s with
  | EmptyString => EmptyString
  | String c s' => String (lower_ascii c) (lower s')
  end.

(** ** The request form

    [request.form] is a [MultiDict]: [data.get(k)] is the first value
    submitted under [k], or [None]. *)
Definition form := list (string * string).

Fixpoint form_get (data : form) (k : string) : option string :=
  match data with
  | [] => None
  | (k', v) :: rest => if String.eqb k' k then Some v else form_get rest k
  end.

(** The two builtins the handler relies on and the repository does not
    define: [int(s)] on a string ([None] stands for the [ValueError] it
    raises on a string that is not an integer literal) and the text of
    [dict(data)] inside an f-string. *)
Class Builtins := {
  py_int : string -> option Z;
  repr_form : form -> string
}.

(** ** Exceptions *)

(** The classes the handler tells apart.  [UniqueViolation] is a
    subclass of [IntegrityError]; both are subclasses of [Exception]. *)
Inductive exn_class :=
| UniqueViolation
| IntegrityError
| OtherError.

Record exn := { exn_cls : exn_class; exn_str : string }.

#[global] Instance exn_class_eq_dec : EqDecision exn_class.
Proof. solve_decision. Defined.

(** ** Responses *)

Inductive body :=
| Html (text : string)        (* a string returned by the view *)
| Redirect (location : string) (* [redirect(...)] *)
| SendFile (name : string).    (* [send_from_directory(project_dir, name)] *)

Record response := { resp_body : body; status : Z }.

Definition page (text : string) (code : Z) : response :=
  {| resp_body := Html text; status := code |}.

(** A view returning a bare string answers with status 200, and
    [redirect] answers 302. *)
Definition ok_page (text : string) : response := page text 200.
Definition redirect (location : string) : response :=
  {| resp_body := Redirect location; status := 302 |}.

(** ** The database behind the connection *)

(** One row of [information_schema.columns] for the table
    [registration]. *)
Record column := {
  column_name : string;
  data_type : option string;
  is_nullable : string;
  column_default : option string
}.

(** A row of [registration]: its columns with their values. *)
Definition row := list (string * value).

Fixpoint row_get (r : row) (col : string) : value :=
  match r with
  | [] => VNone
  | (c, v) :: rest => if String.eqb c col then v else row_get rest col
  end.

Record database := {
  columns : list column;  (* the catalogue rows of [registration] *)
  rows : list row;        (* the committed rows *)
  pending : list row      (* rows inserted by the open transaction *)
}.

(** What the open connection sees: the committed rows and its own
    uncommitted ones. *)
Definition visible (d : database) : list row := rows d ++ pending d.

(** The statements and connection calls of [server.py]. *)
Inductive op :=
| SelectSchema                    (* column_name, data_type *)
| SelectMeta                      (* column_name, is_nullable, column_default *)
| SelectEmail (email : string)    (* ... WHERE LOWER(email) = LOWER(%s) LIMIT 1 *)
| SelectUsername (username : string)  (* ... WHERE username = %s LIMIT 1 *)
| Insert (cols : list string) (vals : list value)
| SelectOne                       (* SELECT 1 *)
| Commit                          (* conn.commit() *)
| Rollback.                       (* conn.rollback() *)

Definition is_insert (o : op) : bool :=
  match o with
  | Insert _ _ => true
  | _ => false
  end.

(** The text of the INSERT statement (lines 217-218). *)
Definition insert_sql (insert_cols : list string) (values : list value) : string :=
  let placeholders := join "," (repeat "%s" (length values)) in
  "INSERT INTO registration (" +:+ join ", " insert_cols
    +:+ ") VALUES (" +:+ placeholders +:+ ")".

(** The answer of the server to a call: [None] when it is carried out,
    [Some e] when the driver raises [e].  It may depend on the contents
    of the database (constraints) and on anything else (availability):
    the handlers are studied for every such behaviour.  A view makes
    each call at most once, so a server whose answers depend on what
    came before (PostgreSQL refuses every statement of a transaction
    after one has failed) is covered too, and a run of several requests
    takes one behaviour per request. *)
Definition server_behaviour := database -> op -> option exn.

(** A call that is carried out: only INSERT, COMMIT and ROLLBACK act on
    the table. *)
Definition effect (o : op) (d : database) : database :=
  match o with
  | Insert cols vals =>
      {| columns := columns d; rows := rows d;
         pending := pending d ++ [combine cols vals] |}
  | Commit =>
      {| columns := columns d; rows := rows d ++ pending d; pending := [] |}
  | Rollback =>
      {| columns := columns d; rows := rows d; pending := [] |}
  | _ => d
  end.

(** A call that raises: a failed statement stores nothing; the
    transaction is over after COMMIT or ROLLBACK whether or not the
    call returns normally, and what it had inserted is discarded. *)
Definition effect_failed (o : op) (d : database) : database :=
  match o with
  | Commit | Rollback =>
      {| columns := columns d; rows := rows d; pending := [] |}
  | _ => d
  end.

(** ** Code that talks to the connection

    The state is the database together with the calls made so far;
    a computation ends with a result or with a raised exception. *)
Record conn := { db : database; log : list op }.

Definition DB (A : Type) : Type := conn -> (exn + A) * conn.

#[global] Instance DB_ret : MRet DB := fun A a c => (inr a, c).

#[global] Instance DB_bind : MBind DB := fun A B k m c =>
  match m c with
  | (inl e, c') => (inl e, c')
  | (inr a, c') => k a c'
  end.

(** [try: m / except Exception as e: h e] *)
Definition try_except {A} (m : DB A) (h : exn -> DB A) : DB A :=
  fun c =>
    match m c with
    | (inl e, c') => h e c'
    | (inr a, c') => (inr a, c')
    end.

(** Reading the database as the connection sees it. *)
Definition query {A} (f : database -> A) : DB A := fun c => (inr (f (db c)), c).

Section Calls.
Variable answers : server_behaviour.

(** One call on the cursor or the connection: it is logged, and it
    either raises or takes effect. *)
Definition call (o : op) : DB unit := fun c =>
  let calls := log c ++ [o] in
  match answers (db c) o with
  | Some e => (inl e, {| db := effect_failed o (db c); log := calls |})
  | None => (inr (), {| db := effect o (db c); log := calls |})
  end.

(** [cur.execute(...)] of the first catalogue query, then
    [cur.fetchall()]. *)
Definition fetch_schema : DB (list (string * option string)) :=
  call SelectSchema;;
  query (fun d => map (fun c => (column_name c, data_type c)) (columns d)).

Definition fetch_meta : DB (list (string * (string * option string))) :=
  call SelectMeta;;
  query (fun d => map (fun c => (column_name c, (is_nullable c, column_default c)))
                      (columns d)).
End Calls.

(** ** [submit]: reading the form (lines 97-111) *)

Record fields := {
  full_name : option string;
  raw_user_id : option string;
  username : option string;
  password_hash : option string;
  email : option string;
  phone : option string;
  father_name : option string;
  mother_name : option string;
  address : option string;
  age : option Z
}.

Section Form.
Context `{Builtins}.

(** [int(data.get('age')) if data.get('age') else None], with
    [except ValueError: age = None]. *)
Definition parse_age (data : form) : option Z :=
  if truthy (form_get data "age") then
    match form_get data "age" with
    | Some s =>
        match py_int s with
        | Some n => Some n
        | None => None          (* ValueError *)
        end
    | None => None
    end
  else None.

Definition collect (data : form) : fields :=
  {| full_name := form_get data "full_name" ||? form_get data "name"
                  ||? form_get data "fullname" ||? form_get data "fullName";
     raw_user_id := form_get data "user_id";
     username := form_get data "username" ||? form_get data "user";
     password_hash := form_get data "password_hash" ||? form_get data "password";
     email := form_get data "email";
     phone := form_get data "phone";
     father_name := form_get data "father_name" ||? form_get data "father";
     mother_name := form_get data "mother_name" ||? form_get data "mother";
     address := form_get data "address";
     age := parse_age data |}.
End Form.

(** ** [submit]: the table's metadata and the candidate values
    (lines 113-154) *)

(** [{row[0]: row[1] for row in cur.fetchall()}]: a later row replaces an
    earlier one with the same key. *)
Definition dict_of {V} (pairs : list (string * V)) : gmap string V :=
  fold_left (fun m kv => <[kv.1 := kv.2]> m) pairs ∅.

(** The value of [colmeta]: [{'is_nullable': r[1], 'default': r[2]}]. *)
Record meta := { meta_is_nullable : string; meta_default : option string }.

Definition colmeta_of (rs : list (string * (string * option string)))
  : gmap string meta :=
  dict_of (map (fun r => (r.1, {| meta_is_nullable := r.2.1;
                                  meta_default := r.2.2 |})) rs).

Section Candidates.
Context `{Builtins}.

(** The dict literal of lines 123-134. *)
Definition candidates_of (f : fields) : gmap string value :=
  dict_of [ ("full_name", of_str (full_name f));
            ("user_id", VNone);
            ("username", of_str (username f));
            ("password_hash", of_str (password_hash f));
            ("email", of_str (email f));
            ("phone", of_str (phone f));
            ("father_name", of_str (father_name f));
            ("mother_name", of_str (mother_name f));
            ("address", of_str (address f));
            ("age", of_int (age f)) ].

(** Lines 137-146: the candidate for [user_id] follows the column's
    type. *)
Definition user_id_candidate (dt : string) (f : fields) : value :=
  if contains "int" dt then
    match raw_user_id f with
    | Some s => of_int (py_int s)   (* a failing [int] leaves None *)
    | None => VNone
    end
  else of_str (raw_user_id f ||? username f).

Definition fill_user_id (schema : gmap string (option string)) (f : fields)
    (candidates : gmap string value) : gmap string value :=
  match schema !! "user_id" with
  | Some t =>
      let dt := default "" t in     (* schema['user_id'] or '' *)
      <["user_id" := user_id_candidate dt f]> candidates
  | None => candidates
  end.
End Candidates.

(** ** [submit]: choosing the columns (lines 190-202) *)

Definition desired_order : list string :=
  ["full_name"; "user_id"; "username"; "password_hash"; "email"; "phone";
   "father_name"; "mother_name"; "address"; "age"].

(** [meta and meta['default'] is not None] *)
Definition has_default (m : option meta) : bool :=
  match m with
  | Some m => match meta_default m with Some _ => true | None => false end
  | None => false
  end.

Section Columns.
Variable schema : gmap string (option string).
Variable candidates : gmap string value.
Variable colmeta : gmap string meta.

(** [candidates.get(col)] *)
Definition candidate (col : string) : value := default VNone (candidates !! col).

(** One turn of the loop over [desired_order]; [acc] is
    [(insert_cols, values)]. *)
Definition select_step (acc : list string * list value) (col : string)
  : list string * list value :=
  match schema !! col with
  | Some _ =>
      let val := candidate col in
      let m := colmeta !! col in
      if is_none val && has_default m then acc
      else (acc.1 ++ [col], acc.2 ++ [val])
  | None => acc
  end.

Definition select_columns : list string * list value :=
  fold_left select_step desired_order ([], []).

(** [meta and meta['is_nullable'] == 'NO' and meta['default'] is None
    and val is None] *)
Definition required_missing (col : string) (val : value) : bool :=
  match colmeta !! col with
  | Some m =>
      String.eqb (meta_is_nullable m) "NO"
      && negb (has_default (Some m))
      && is_none val
  | None => false
  end.

(** Lines 208-215: the first selected column that is required and has
    no value; [values] is as long as [insert_cols], so [values[i]] is
    the value paired with the [i]-th column. *)
Fixpoint first_required_missing (insert_cols : list string) (values : list value)
  : option string :=
  match insert_cols, values with
  | col :: cols', val :: vals' =>
      if required_missing col val then Some col
      else first_required_missing cols' vals'
  | _, _ => None
  end.
End Columns.

(** ** The pages of [submit] *)

Definition not_connected_page (db_connect_error : string) : string :=
  "<h2>DB not connected:</h2><pre>" +:+ db_connect_error
    +:+ "</pre><a href='/'>Go Back</a>".

Definition email_taken_page (email : string) : string :=
  "<h2>Email already registered</h2>"
    +:+ "<p>The email " +:+ email
    +:+ " is already in use. If this is your account, please <a href='/login'>log in</a>."
    +:+ "<br><a href='/'>Go Back</a></p>".

Definition username_taken_page (username : string) : string :=
  "<h2>Username already taken</h2>"
    +:+ "<p>The username " +:+ username
    +:+ " is already in use. Choose another username or <a href='/login'>log in</a>."
    +:+ "<br><a href='/'>Go Back</a></p>".

Definition no_columns_page : string :=
  "<h2>Error:</h2><pre>No matching columns found in registration table.</pre><a href='/'>Go Back</a>".

Definition required_page (col : string) : string :=
  "<h2>Error:</h2><pre>Column '" +:+ col
    +:+ "' is required by the database but no value was provided."
    +:+ " Provide a value in the form or alter the DB to use a default/sequence.</pre>"
    +:+ "<a href='/'>Go Back</a>".

Definition duplicate_page (ue : exn) : string :=
  "<h2>Duplicate value</h2><p>A record with that email or unique field already exists."
    +:+ " If this is your account, please log in. Error: " +:+ exn_str ue
    +:+ "</p><a href='/'>Go Back</a>".

Definition integrity_page (ie : exn) : string :=
  "<h2>Data integrity error</h2><pre>" +:+ exn_str ie
    +:+ "</pre><a href='/'>Go Back</a>".

Definition error_saving_page `{Builtins} (e : exn) (data : form) : string :=
  "<h2>Error saving data:</h2><pre>" +:+ exn_str e
    +:+ "</pre><p>Received data: " +:+ repr_form data
    +:+ "</p><a href='/'>Go Back</a>".

(** ** [submit] (lines 88-249) *)

(** [LOWER(email) = LOWER(%s)] and [username = %s] on one row; a NULL
    matches nothing. *)
Definition email_matches (e : string) (r : row) : bool :=
  match row_get r "email" with
  | VStr s => String.eqb (lower s) (lower e)
  | _ => false
  end.

Definition username_matches (u : string) (r : row) : bool :=
  match row_get r "username" with
  | VStr s => String.eqb s u
  | _ => false
  end.

(** How the module stands after start-up: [cur] and [conn] are both set,
    or both [None] with the text of the connection error kept. *)
Inductive link :=
| Connected
| NotConnected (db_connect_error : string).

Section Submit.
Context `{Builtins}.
Variable answers : server_behaviour.

Local Abbreviation call := (call answers).

(** [try: conn.rollback() / except Exception: log.exception(...)] *)
Definition rollback_quietly : DB unit :=
  try_except (call Rollback) (fun _ => mret ()).

(** Lines 160-172; [Some r] is the early [return r]. *)
Definition check_email (f : fields) : DB (option response) :=
  match email f with
  | Some e =>
      if truthy (Some e) then
        call (SelectEmail e);;
        found ← query (fun d => existsb (email_matches e) (visible d));
        if found : bool then
          rollback_quietly;;
          mret (Some (page (email_taken_page e) 409))
        else mret None
      else mret None
  | None => mret None
  end.

(** Lines 175-184. *)
Definition check_username (f : fields) : DB (option response) :=
  match username f with
  | Some u =>
      if truthy (Some u) then
        call (SelectUsername u);;
        found ← query (fun d => existsb (username_matches u) (visible d));
        if found : bool then
          rollback_quietly;;
          mret (Some (page (username_taken_page u) 409))
        else mret None
      else mret None
  | None => mret None
  end.

(** The body of the inner [try] (lines 159-184). *)
Definition duplicate_checks (f : fields) : DB (option response) :=
  r ← check_email f;
  match r with
  | Some resp => mret (Some resp)
  | None => check_username f
  end.

(** Lines 158-188: the checks run inside their own [try]; whatever
    they raise is logged and the handler goes on. *)
Definition check_duplicates (f : fields) : DB (option response) :=
  try_except (duplicate_checks f) (fun _ => mret None).

(** Lines 190-222. *)
Definition insert_registration (schema : gmap string (option string))
    (candidates : gmap string value) (colmeta : gmap string meta)
  : DB response :=
  let '(insert_cols, values) := select_columns schema candidates colmeta in
  match insert_cols with
  | [] => mret (page no_columns_page 500)
  | _ =>
      match first_required_missing colmeta insert_cols values with
      | Some col => mret (page (required_page col) 400)
      | None =>
          call (Insert insert_cols values);;
          call Commit;;
          mret (redirect "/success")
      end
  end.

(** The body of the outer [try] (lines 113-222). *)
Definition submit_body (f : fields) : DB response :=
  schema_rows ← fetch_schema answers;
  let schema := dict_of schema_rows in
  let candidates := fill_user_id schema f (candidates_of f) in
  meta_rows ← fetch_meta answers;
  let colmeta := colmeta_of meta_rows in
  early ← check_duplicates f;
  match early with
  | Some resp => mret resp
  | None => insert_registration schema candidates colmeta
  end.

(** The three [except] clauses (lines 224-249), tried in order: each
    rolls back, then answers with its own page. *)
Definition error_response (data : form) (e : exn) : response :=
  match exn_cls e with
  | UniqueViolation => page (duplicate_page e) 400
  | IntegrityError => page (integrity_page e) 400
  | OtherError => ok_page (error_saving_page e data)
  end.

Definition rescue (data : form) (e : exn) : DB response :=
  rollback_quietly;;
  mret (error_response data e).

Definition submit (l : link) (data : form) : DB response :=
  match l with
  | NotConnected db_connect_error =>
      mret (page (not_connected_page db_connect_error) 500)
  | Connected =>
      let f := collect data in
      try_except (submit_body f) (rescue data)
  end.
End Submit.

(** ** The other views *)

Definition dq : string := String (ascii_of_nat 34) EmptyString.

Definition session := gmap string (option string).

Inductive method := GET | POST.

Definition login_form : string :=
  "<h2>Login (fallback)</h2>"
    +:+ "<form method=" +:+ dq +:+ "post" +:+ dq +:+ ">"
    +:+ "<input name=" +:+ dq +:+ "username" +:+ dq
    +:+ " placeholder=" +:+ dq +:+ "username" +:+ dq +:+ ">"
    +:+ "<button type=" +:+ dq +:+ "submit" +:+ dq +:+ ">Login</button>"
    +:+ "</form>".

(** Lines 57-69; [url_for('home_loggedin')] is [/home_loggedin]. *)
Definition login (m : method) (data : form) (s : session) : response * session :=
  match m with
  | POST => (redirect "/home_loggedin", <["user" := form_get data "username"]> s)
  | GET => (ok_page login_form, s)
  end.

(** Lines 71-74; [url_for('index')] is [/]. *)
Definition logout (s : session) : response * session :=
  (redirect "/", delete "user" s).

(** What [render_template('student_form.html')] does. *)
Inductive rendering :=
| Rendered (html : string)
| TemplateNotFound
| RenderingError (e : string).

(** Lines 76-86. *)
Definition index (r : rendering) : response :=
  match r with
  | Rendered html => ok_page html
  | TemplateNotFound => {| resp_body := SendFile "student form.html"; status := 200 |}
  | RenderingError e => page ("<h2>Error rendering form:</h2><pre>" +:+ e +:+ "</pre>") 500
  end.

(** Lines 251-258. *)
Definition success : response :=
  ok_page ("<h2>Thanks! Your info has been saved.</h2>"
    +:+ "<p><a href=" +:+ dq +:+ "/home_loggedin" +:+ dq +:+ ">Go to Home (logged in)</a></p>"
    +:+ "<p><a href=" +:+ dq +:+ "/" +:+ dq +:+ ">Go Back to Form</a></p>"
    +:+ "<script>setTimeout(()=>{ window.location.href=" +:+ dq +:+ "/home_loggedin"
    +:+ dq +:+ "; }, 2000);</script>").

(** Lines 260-263. *)
Definition home_loggedin : response :=
  {| resp_body := SendFile "home_loggedin.html"; status := 200 |}.

(** Lines 265-274. *)
Definition db_status (answers : server_behaviour) (l : link) : DB response :=
  match l with
  | NotConnected db_connect_error =>
      mret (page ("DB connection error: " +:+ db_connect_error) 500)
  | Connected =>
      try_except
        (call answers SelectOne;; mret (page "DB OK" 200))
        (fun e => mret (page ("DB error: " +:+ exn_str e) 500))
  end.

(** ** The application *)

Record world := {
  connection : link;
  store : database;
  user_session : session;
  template : rendering
}.

Inductive request :=
| ReqLogin (m : method) (data : form)   (* /login *)
| ReqLogout                             (* /logout *)
| ReqIndex                              (* / *)
| ReqSubmit (data : form)               (* POST /submit *)
| ReqSuccess                            (* /success *)
| ReqHome                               (* /home_loggedin *)
| ReqDbStatus.                          (* /db_status *)

(** Running a view against the store.  An exception that leaves a view
    becomes the framework's 500 page. *)
Definition serve (m : DB response) (d : database) : response * database * list op :=
  match m {| db := d; log := [] |} with
  | (inr r, c) => (r, db c, log c)
  | (inl _, c) => (page "Internal Server Error" 500, db c, log c)
  end.

Definition with_store (w : world) (d : database) : world :=
  {| connection := connection w; store := d;
     user_session := user_session w; template := template w |}.

Definition with_session (w : world) (s : session) : world :=
  {| connection := connection w; store := store w;
     user_session := s; template := template w |}.

Section Application.
Context `{Builtins}.
Variable answers : server_behaviour.

(** One request: the response, the world after it, and the calls made
    on the connection. *)
Definition handle (w : world) (req : request) : response * world * list op :=
  match req with
  | ReqLogin m data =>
      let '(r, s) := login m data (user_session w) in (r, with_session w s, [])
  | ReqLogout =>
      let '(r, s) := logout (user_session w) in (r, with_session w s, [])
  | ReqIndex => (index (template w), w, [])
  | ReqSubmit data =>
      let '(r, d, calls) := serve (submit answers (connection w) data) (store w) in
      (r, with_store w d, calls)
  | ReqSuccess => (success, w, [])
  | ReqHome => (home_loggedin, w, [])
  | ReqDbStatus =>
      let '(r, d, calls) := serve (db_status answers (connection w)) (store w) in
      (r, with_store w d, calls)
  end.
End Application.

(** A run of the application: each request comes with the behaviour of
    the server while it is handled. *)
Fixpoint run `{Builtins} (w : world) (reqs : list (server_behaviour * request)) : world :=
  match reqs with
  | [] => w
  | (answers, req) :: rest => run (handle answers w req).1.2 rest
  end.

(** ** What the handler reads from the catalogue

    The two catalogue queries, turned into the dicts [schema] and
    [colmeta], and the candidates and columns that follow from them. *)

Definition schema_of (d : database) : gmap string (option string) :=
  dict_of (map (fun c => (column_name c, data_type c)) (columns d)).

Definition colmeta_in (d : database) : gmap string meta :=
  colmeta_of (map (fun c => (column_name c, (is_nullable c, column_default c)))
                  (columns d)).

Definition candidates_for `{Builtins} (d : database) (data : form) : gmap string value :=
  fill_user_id (schema_of d) (collect data) (candidates_of (collect data)).

Definition planned_insert `{Builtins} (d : database) (data : form)
  : list string * list value :=
  select_columns (schema_of d) (candidates_for d data) (colmeta_in d).

(** ** Vocabulary of the statements *)

Fixpoint count_inserts (calls : list op) : nat :=
  match calls with
  | [] => 0%nat
  | o :: rest => ((if is_insert o then 1 else 0) + count_inserts rest)%nat
  end.

(** The statements that only read. *)
Definition is_query (o : op) : bool :=
  match o with
  | SelectSchema | SelectMeta | SelectEmail _ | SelectUsername _ | SelectOne => true
  | Insert _ _ | Commit | Rollback => false
  end.

(** The fixed list of columns, in the words of the data model: a column
    is inserted when the table has it, unless it has no value and the
    database has a default for it. *)
Definition inserted (schema : gmap string (option string))
    (candidates : gmap string value) (colmeta : gmap string meta)
    (col : string) : bool :=
  bool_decide (is_Some (schema !! col))
  && negb (is_none (candidate candidates col) && has_default (colmeta !! col)).

Definition spec_insert_columns (schema : gmap string (option string))
    (candidates : gmap string value) (colmeta : gmap string meta) : list string :=
  List.filter (inserted schema candidates colmeta)
    ["full_name"; "user_id"; "username"; "password_hash"; "email"; "phone";
     "father_name"; "mother_name"; "address"; "age"].

(** The first usable value among the form fields [names]: the first one
    that is present and not empty, else whatever the last one holds. *)
Fixpoint first_of (data : form) (names : list string) : option string :=
  match names with
  | [] => None
  | [k] => form_get data k
  | k :: rest => if truthy (form_get data k) then form_get data k
                 else first_of data rest
  end.

(** PostgreSQL's names for its integer types in [data_type]. *)
Definition integer_types : list string := ["smallint"; "integer"; "bigint"].

(** The form with every [age] field taken out. *)
Definition without_age (data : form) : form :=
  List.filter (fun kv => negb (String.eqb kv.1 "age")) data.

(** ** A concrete instance of the builtins, for the examples

    [int] on plain decimal literals with an optional sign, and a plain
    rendering of the form as a dict. *)

Definition digit (c : ascii) : option Z :=
  let n := nat_of_ascii c in
  if ((48 <=? n) && (n <=? 57))%nat then Some (Z.of_nat n - 48) else None.

Fixpoint digits (acc : Z) (s : string) : option Z :=
  match s with
  | EmptyString => Some acc
  | String c s' =>
      match digit c with
      | Some k => digits (10 * acc + k) s'
      | None => None
      end
  end.

Definition decimal_int (s : string) : option Z :=
  match s with
  | EmptyString => None
  | String "-" EmptyString | String "+" EmptyString => None
  | String "-" s' => Z.opp <$> digits 0 s'
  | String "+" s' => digits 0 s'
  | _ => digits 0 s
  end.

Definition plain_repr (data : form) : string :=
  "{" +:+ join ", " (map (fun kv => "'" +:+ kv.1 +:+ "': '" +:+ kv.2 +:+ "'") data) +:+ "}".

Definition plain_builtins : Builtins :=
  {| py_int := decimal_int; repr_form := plain_repr |}.

(** A server that carries out every call. *)
Definition obliging : server_behaviour := fun _ _ => None.

(** ** The runs of [submit], seen from the table *)

(** The shapes a run of [submit] can take, seen from the table: it
    either makes no INSERT and commits nothing, or it makes the one
    INSERT planned from the catalogue, after which the row is committed,
    or the INSERT or the COMMIT raises and the transaction is dropped. *)
Inductive submit_run `{Builtins} (answers : server_behaviour) (d : database)
    (data : form) : response -> database -> list op -> Prop :=
| run_without_insert resp d' calls :
    count_inserts calls = 0%nat ->
    columns d' = columns d ->
    rows d' = rows d ->
    pending d' = pending d \/ pending d' = [] ->
    resp <> redirect "/success" ->
    submit_run answers d data resp d' calls
| run_committed pre cols vals :
    planned_insert d data = (cols, vals) ->
    count_inserts pre = 0%nat ->
    answers d (Insert cols vals) = None ->
    submit_run answers d data (redirect "/success")
      {| columns := columns d;
         rows := rows d ++ pending d ++ [combine cols vals];
         pending := [] |}
      (pre ++ [Insert cols vals; Commit])
| run_insert_raised pre cols vals e :
    planned_insert d data = (cols, vals) ->
    count_inserts pre = 0%nat ->
    answers d (Insert cols vals) = Some e ->
    submit_run answers d data (error_response data e)
      {| columns := columns d; rows := rows d; pending := [] |}
      (pre ++ [Insert cols vals; Rollback])
| run_commit_raised pre cols vals e :
    planned_insert d data = (cols, vals) ->
    count_inserts pre = 0%nat ->
    answers d (Insert cols vals) = None ->
    submit_run answers d data (error_response data e)
      {| columns := columns d; rows := rows d; pending := [] |}
      (pre ++ [Insert cols vals; Commit; Rollback]).

(** ** Duplicates *)

(** A registration row holds this email, up to case, or this username;
    the handler only looks for a value that is not empty. *)
Definition email_in_use (d : database) (e : option string) : Prop :=
  exists s t r, e = Some s /\ s <> "" /\ In r (rows d)
                /\ row_get r "email" = VStr t /\ lower t = lower s.

Definition username_in_use (d : database) (u : option string) : Prop :=
  exists s r, u = Some s /\ s <> "" /\ In r (rows d) /\ row_get r "username" = VStr s.

(** The refusal of duplicates without any proviso: whenever the email of
    the form matches the email of a row up to case, or its username is
    the username of a row, the answer is 409 and the table is left
    alone. *)
Definition refuses_every_duplicate `{Builtins} (answers : server_behaviour)
    (l : link) (data : form) (d : database) : Prop :=
  (exists r e t, In r (rows d) /\ email (collect data) = Some e
                 /\ row_get r "email" = VStr t /\ lower t = lower e)
  \/ (exists r u, In r (rows d) /\ username (collect data) = Some u
                  /\ row_get r "username" = VStr u) ->
  let '(resp, d', calls) := serve (submit answers l data) d in
  status resp = 409 /\ count_inserts calls = 0%nat /\ rows d' = rows d.

Definition operational_error : exn :=
  {| exn_cls := OtherError; exn_str := "server closed the connection unexpectedly" |}.

Definition in_failed_transaction : exn :=
  {| exn_cls := OtherError;
     exn_str := "current transaction is aborted, commands ignored until end of transaction block" |}.

(** A server on which the lookup by email fails; as PostgreSQL does, it
    then refuses the statements that follow in the transaction. *)
Definition failing_email_lookup : server_behaviour :=
  fun _ o =>
    match o with
    | SelectEmail _ => Some operational_error
    | SelectUsername _ | Insert _ _ => Some in_failed_transaction
    | _ => None
    end.

(** A selected column that the database declares NOT NULL, without
    default, and for which the handler has no value. *)
Definition required_without_value `{Builtins} (d : database) (data : form)
    (col : string) : Prop :=
  In col (planned_insert d data).1
  /\ (exists m, colmeta_in d !! col = Some m
                /\ meta_is_nullable m = "NO" /\ meta_default m = None)
  /\ candidate (candidates_for d data) col = VNone.

(** Two rows that a unique index on [lower(email)] or on [username]
    would not accept together. *)
Definition clash (r r' : row) : bool :=
  match row_get r "email", row_get r' "email" with
  | VStr s, VStr t => String.eqb (lower s) (lower t)
  | _, _ => false
  end
  || match row_get r "username", row_get r' "username" with
     | VStr u, VStr v => String.eqb u v
     | _, _ => false
     end.

(** Every row of the table clashes with none of the rows before it. *)
Definition without_duplicates (table : list row) : Prop :=
  forall before r after, table = before ++ r :: after -> existsb (clash r) before = false.

(** The server refuses, with [UniqueViolation], the INSERT of a row that
    clashes with a row it can see. *)
Definition enforces_uniqueness (answers : server_behaviour) : Prop :=
  forall d cols vals,
    existsb (clash (combine cols vals)) (visible d) = true ->
    exists ue, answers d (Insert cols vals) = Some ue /\ exn_cls ue = UniqueViolation.

(** A server with unique indexes on [lower(email)] and on [username]:
    the INSERT of a row that clashes with a row of the table raises
    [UniqueViolation]. *)
Definition unique_violation : exn :=
  {| exn_cls := UniqueViolation;
     exn_str := "duplicate key value violates unique constraint" |}.

Definition unique_index : server_behaviour :=
  fun d o =>
    match o with
    | Insert cols vals =>
        if existsb (clash (combine cols vals)) (visible d)
        then Some unique_violation else None
    | _ => None
    end.

(** ** Examples *)

(** A table for the examples: [user_id] fed by the sequence, a required
    [username], and optional [email] and [age]. *)
Definition sample_columns : list column :=
  [ {| column_name := "user_id"; data_type := Some "integer"; is_nullable := "NO";
       column_default := Some "nextval('registration_user_id_seq'::regclass)" |};
    {| column_name := "username"; data_type := Some "text"; is_nullable := "NO";
       column_default := None |};
    {| column_name := "email"; data_type := Some "text"; is_nullable := "YES";
       column_default := None |};
    {| column_name := "age"; data_type := Some "integer"; is_nullable := "YES";
       column_default := None |} ].

Definition sample_db (table : list row) : database :=
  {| columns := sample_columns; rows := table; pending := [] |}.

Definition sample_form : form :=
  [("username", "asha"); ("email", "Asha@example.org"); ("age", "twelve")].

(** Rows and forms of the examples. *)
Definition asha_row : row :=
  [("username", VStr "asha"); ("email", VStr "asha@example.org"); ("age", VNone)].

Definition blank_email_row : row :=
  [("username", VStr "asha"); ("email", VStr ""); ("age", VNone)].

Definition blank_email_form : form := [("username", "ravi"); ("email", "")].

Definition same_email_form : form :=
  [("username", "ravi"); ("email", "ASHA@example.org")].

(** ** Further vocabulary *)

(** The status of the page of an [except] clause: 400 for the two
    integrity clauses, 200 for the last one, which returns a bare
    string. *)
Definition rescue_status (e : exn) : Z :=
  match exn_cls e with
  | UniqueViolation | IntegrityError => 400
  | OtherError => 200
  end.



Definition text_id_columns : list column :=
  [ {| column_name := "user_id"; data_type := Some "character varying";
       is_nullable := "NO"; column_default := None |};
    {| column_name := "username"; data_type := Some "text"; is_nullable := "NO";
       column_default := None |};
    {| column_name := "password_hash"; data_type := Some "text"; is_nullable := "YES";
       column_default := None |} ].

Definition table_of (cs : list column) : database :=
  {| columns := cs; rows := []; pending := [] |}.

(** The requests to [/submit] in a run. *)
Definition is_submit (req : request) : bool :=
  match req with
  | ReqSubmit _ => true
  | _ => false
  end.

Fixpoint count_submits (reqs : list (server_behaviour * request)) : nat :=
  match reqs with
  | [] => 0%nat
  | (_, req) :: rest => ((if is_submit req then 1 else 0) + count_submits rest)%nat
  end.


(** The same server, on which no ROLLBACK ever fails. *)
Definition with_sound_rollback (answers : server_behaviour) : server_behaviour :=
  fun d o =>
    match o with
    | Rollback => None
    | _ => answers d o
    end.

(** A catalogue in which two schemas have a table [registration]. *)
Definition age_as_text : column :=
  {| column_name := "age"; data_type := Some "text"; is_nullable := "YES";
     column_default := None |}.

Definition age_as_integer : column :=
  {| column_name := "age"; data_type := Some "integer"; is_nullable := "NO";
     column_default := Some "0" |}.

(** * Properties *)

(** ** Field names of the form *)

Lemma truthy_nonempty (o : option string) :
  truthy o = true <-> exists s, o = Some s /\ s <> "".
Proof.
  destruct o as [s|]; simpl.
  - rewrite negb_true_iff. split.
    + intros E. exists s. split; [reflexivity|].
      intros ->. discriminate.
    + intros (s' & [= <-] & Hne). now apply String.eqb_neq.
  - split; [discriminate | intros (s & [=] & _)].
Qed.

(** The first name of the list wins whenever it holds a value. *)
Lemma first_of_head (data : form) (k : string) (rest : list string) :
  truthy (form_get data k) = true -> first_of data (k :: rest) = form_get data k.
Proof.
  intros Hk. destruct rest as [|k' rest]; simpl; [reflexivity|].
  now rewrite Hk.
Qed.

(** A name is skipped when it is missing or empty, as long as another
    one follows. *)
Lemma first_of_skip (data : form) (k k' : string) (rest : list string) :
  truthy (form_get data k) = false ->
  first_of data (k :: k' :: rest) = first_of data (k' :: rest).
Proof. intros Hk. cbn [first_of]. now rewrite Hk. Qed.

(** C10: [submit] reads each of [full_name], [username],
    [password_hash], [father_name] and [mother_name] from the first
    field, in the order canonical name then alternatives ([name],
    [fullname], [fullName]; [user]; [password]; [father]; [mother]),
    that is present and not empty. *)
Theorem alternative_field_names `{Builtins} (data : form) :
  full_name (collect data)
    = first_of data ["full_name"; "name"; "fullname"; "fullName"]
  /\ username (collect data) = first_of data ["username"; "user"]
  /\ password_hash (collect data) = first_of data ["password_hash"; "password"]
  /\ father_name (collect data) = first_of data ["father_name"; "father"]
  /\ mother_name (collect data) = first_of data ["mother_name"; "mother"].
Proof. repeat split. Qed.

(** ** Login *)

(** C6: a POST to [/login] stores the [username] field in the session
    under [user] and redirects to [/home_loggedin]; no call is made on
    the database, the registration table is not consulted, and two forms
    with the same [username] field (whatever else they hold, a password
    included) have the same outcome. *)
Theorem login_trusts_username `{Builtins} (answers : server_behaviour)
    (w : world) (data data' : form) :
  let '(resp, w', calls) := handle answers w (ReqLogin POST data) in
  resp = redirect "/home_loggedin"
  /\ user_session w' !! "user" = Some (form_get data "username")
  /\ (forall k, k <> "user" -> user_session w' !! k = user_session w !! k)
  /\ calls = [] /\ store w' = store w
  /\ (form_get data' "username" = form_get data "username" ->
      handle answers w (ReqLogin POST data') = handle answers w (ReqLogin POST data)).
Proof.
  cbn. repeat split.
  - apply lookup_insert_eq.
  - intros k Hk. now apply lookup_insert_ne.
  - now intros ->.
Qed.

Lemma login_trusts_username_witness :
  handle (H := plain_builtins) obliging
    {| connection := Connected;
       store := {| columns := []; rows := []; pending := [] |};
       user_session := ∅; template := TemplateNotFound |}
    (ReqLogin POST [("username", "asha"); ("password", "wrong")])
  = handle (H := plain_builtins) obliging
      {| connection := Connected;
         store := {| columns := []; rows := []; pending := [] |};
         user_session := ∅; template := TemplateNotFound |}
      (ReqLogin POST [("username", "asha"); ("password", "right")]).
Proof.
  apply (login_trusts_username (H := plain_builtins) obliging
           {| connection := Connected;
              store := {| columns := []; rows := []; pending := [] |};
              user_session := ∅; template := TemplateNotFound |}
           [("username", "asha"); ("password", "right")]
           [("username", "asha"); ("password", "wrong")]).
  reflexivity.
Defined.

(** ** The columns of the INSERT *)

Section ColumnFacts.
Variable schema : gmap string (option string).
Variable candidates : gmap string value.
Variable colmeta : gmap string meta.

Local Abbreviation keep := (inserted schema candidates colmeta).
Local Abbreviation step := (select_step schema candidates colmeta).

Lemma select_step_keep (acc : list string * list value) (col : string) :
  step acc col
  = if keep col then (acc.1 ++ [col], acc.2 ++ [candidate candidates col]) else acc.
Proof.
  unfold select_step, inserted.
  destruct (schema !! col) as [t|] eqn:E.
  - rewrite bool_decide_eq_true_2 by eauto. cbn [andb].
    now destruct (is_none _ && has_default _).
  - rewrite bool_decide_eq_false_2; [reflexivity|].
    intros [t Ht]. discriminate.
Qed.

(** The loop of lines 194-202 is a filter: induction on the columns
    still to visit, for any columns already chosen. *)
Lemma select_loop (order : list string) (acc : list string * list value) :
  fold_left step order acc
  = (acc.1 ++ List.filter keep order,
     acc.2 ++ map (candidate candidates) (List.filter keep order)).
Proof.
  revert acc. induction order as [|col order IH]; intros [cols vals].
  - cbn. now rewrite !app_nil_r.
  - cbn [fold_left List.filter]. rewrite IH, select_step_keep.
    destruct (keep col); cbn [fst snd map].
    + now rewrite <- !app_assoc.
    + reflexivity.
Qed.

Lemma select_columns_filter :
  select_columns schema candidates colmeta
  = (spec_insert_columns schema candidates colmeta,
     map (candidate candidates) (spec_insert_columns schema candidates colmeta)).
Proof. unfold select_columns. now rewrite select_loop. Qed.

Lemma select_columns_length :
  length (select_columns schema candidates colmeta).1
  = length (select_columns schema candidates colmeta).2.
Proof. rewrite select_columns_filter. cbn [fst snd]. now rewrite length_map. Qed.

(** What [first_required_missing] finds is a selected column, required
    and without value; and it finds one whenever there is one. *)
Lemma first_required_missing_some (cols : list string) (col : string) :
  first_required_missing colmeta cols (map (candidate candidates) cols) = Some col ->
  In col cols /\ required_missing colmeta col (candidate candidates col) = true.
Proof.
  induction cols as [|c cols IH]; cbn; [discriminate|].
  destruct (required_missing colmeta c _) eqn:E.
  - intros [= <-]. auto.
  - intros Hf. destruct (IH Hf). auto.
Qed.

Lemma first_required_missing_none (cols : list string) :
  first_required_missing colmeta cols (map (candidate candidates) cols) = None ->
  forall col, In col cols ->
    required_missing colmeta col (candidate candidates col) = false.
Proof.
  induction cols as [|c cols IH]; cbn; [tauto|].
  destruct (required_missing colmeta c _) eqn:E; [discriminate|].
  intros Hf col [<- | Hin]; auto.
Qed.
End ColumnFacts.

(** ** The runs of [submit] *)

(** Unfolding a view down to the calls it makes. *)
Ltac unfold_views :=
  unfold serve, submit, db_status, submit_body, rescue,
    fetch_schema, fetch_meta, check_duplicates, duplicate_checks,
    check_email, check_username,
    insert_registration, rollback_quietly, query, call, try_except,
    mbind, DB_bind, mret, DB_ret.

Ltac tidy :=
  cbn [db log effect effect_failed fst snd rows pending columns app].

(** One branching point of a view: the answer of the server to the next
    call, or a test of the handler. *)
Ltac branch :=
  match goal with
  | |- context [match ?a ?d ?o with _ => _ end] =>
      lazymatch type of a with
      | server_behaviour => destruct (a d o) eqn:?
      end
  | |- context [if truthy ?x then _ else _] => destruct (truthy x) eqn:?
  | |- context [match email ?f with _ => _ end] => destruct (email f) eqn:?
  | |- context [match username ?f with _ => _ end] => destruct (username f) eqn:?
  | |- context [if existsb ?p ?l then _ else _] => destruct (existsb p l) eqn:?
  | |- context [match select_columns ?a ?b ?c with _ => _ end] =>
      destruct (select_columns a b c) as [[|? ?] ?] eqn:?
  | |- context [match first_required_missing ?a ?b ?c with _ => _ end] =>
      destruct (first_required_missing a b c) eqn:?
  end; tidy.

Ltac walk := unfold_views; tidy; repeat branch.

Lemma error_response_not_success `{Builtins} (data : form) (e : exn) :
  error_response data e <> redirect "/success".
Proof. unfold error_response. now destruct (exn_cls e). Qed.

Lemma submit_runs `{Builtins} (answers : server_behaviour) (l : link)
    (data : form) (d : database) :
  let '(resp, d', calls) := serve (submit answers l data) d in
  submit_run answers d data resp d' calls.
Proof.
  destruct l as [|err]; [|now apply run_without_insert; cbn; auto].
  walk.
  all: try (apply run_without_insert; cbn;
            auto using error_response_not_success; discriminate).
  all: first [ eapply (run_committed _ _ _ [_; _])
             | eapply (run_committed _ _ _ [_; _; _])
             | eapply (run_committed _ _ _ [_; _; _; _])
             | eapply (run_insert_raised _ _ _ [_; _])
             | eapply (run_insert_raised _ _ _ [_; _; _])
             | eapply (run_insert_raised _ _ _ [_; _; _; _])
             | eapply (run_commit_raised _ _ _ [_; _])
             | eapply (run_commit_raised _ _ _ [_; _; _])
             | eapply (run_commit_raised _ _ _ [_; _; _; _]) ];
       (reflexivity || eassumption).
Qed.

Lemma count_inserts_app (a b : list op) :
  count_inserts (a ++ b) = (count_inserts a + count_inserts b)%nat.
Proof. induction a as [|o a IH]; cbn; [reflexivity|]. rewrite IH. lia. Qed.

Lemma count_inserts_none (calls : list op) (cols : list string) (vals : list value) :
  count_inserts calls = 0%nat -> ~ In (Insert cols vals) calls.
Proof.
  induction calls as [|o calls IH]; cbn; [tauto|].
  intros Hc [-> | Hin]; cbn in Hc; [lia|].
  apply IH; [lia | assumption].
Qed.

(** Every INSERT that [submit] makes is the one planned from the
    catalogue and the form. *)
Lemma insert_is_planned `{Builtins} (answers : server_behaviour) (l : link)
    (data : form) (d : database) (cols : list string) (vals : list value) :
  In (Insert cols vals) (serve (submit answers l data) d).2 ->
  planned_insert d data = (cols, vals).
Proof.
  pose proof (submit_runs answers l data d) as Hrun.
  destruct (serve (submit answers l data) d) as [[resp d'] calls].
  cbn [snd]. intros Hin.
  destruct Hrun as [resp d' calls Hc _ _ _ _ | pre c v Hp Hc _
                    | pre c v e Hp Hc _ | pre c v e Hp Hc _].
  - now apply count_inserts_none with (cols := cols) (vals := vals) in Hc.
  - apply in_app_or in Hin as [Hin | [[= <- <-] | [[=] | []]]]; [|assumption].
    now apply count_inserts_none with (cols := cols) (vals := vals) in Hc.
  - apply in_app_or in Hin as [Hin | [[= <- <-] | [[=] | []]]]; [|assumption].
    now apply count_inserts_none with (cols := cols) (vals := vals) in Hc.
  - apply in_app_or in Hin as [Hin | [[= <- <-] | [[=] | [[=] | []]]]]; [|assumption].
    now apply count_inserts_none with (cols := cols) (vals := vals) in Hc.
Qed.

Lemma planned_insert_eq `{Builtins} (d : database) (data : form) :
  planned_insert d data
  = select_columns (schema_of d) (candidates_for d data) (colmeta_in d).
Proof. reflexivity. Qed.

Lemma planned_insert_filter `{Builtins} (d : database) (data : form) :
  planned_insert d data
  = (spec_insert_columns (schema_of d) (candidates_for d data) (colmeta_in d),
     map (candidate (candidates_for d data))
         (spec_insert_columns (schema_of d) (candidates_for d data) (colmeta_in d))).
Proof. exact (select_columns_filter _ _ _). Qed.

(** The text sent for the columns of the sample table. *)
Example insert_sql_sample :
  insert_sql ["username"; "email"; "age"] [VStr "asha"; VStr "a@b.c"; VNone]
  = "INSERT INTO registration (username, email, age) VALUES (%s,%s,%s)".
Proof. reflexivity. Qed.

(** C3: the INSERT made by [submit] lists exactly the columns of the
    fixed list [full_name, user_id, username, password_hash, email,
    phone, father_name, mother_name, address, age] that the introspected
    schema has, in that order, leaving out those whose candidate is
    [None] while the database has a default for them; the values bound
    are the candidates of these columns. *)
Theorem insert_columns_from_schema `{Builtins} (answers : server_behaviour)
    (l : link) (data : form) (d : database)
    (cols : list string) (vals : list value) :
  In (Insert cols vals) (serve (submit answers l data) d).2 ->
  cols = spec_insert_columns (schema_of d) (candidates_for d data) (colmeta_in d)
  /\ vals = map (candidate (candidates_for d data)) cols.
Proof.
  intros Hin. apply insert_is_planned in Hin.
  rewrite planned_insert_filter in Hin.
  apply pair_equal_spec in Hin as [Hcols Hvals].
  split; [symmetry; exact Hcols|].
  rewrite <- Hvals, Hcols. reflexivity.
Qed.

Lemma insert_columns_from_schema_witness :
  ["username"; "email"; "age"]
  = spec_insert_columns (schema_of (sample_db []))
      (candidates_for (H := plain_builtins) (sample_db []) sample_form)
      (colmeta_in (sample_db []))
  /\ [VStr "asha"; VStr "Asha@example.org"; VNone]
     = map (candidate (candidates_for (H := plain_builtins) (sample_db []) sample_form))
           ["username"; "email"; "age"].
Proof.
  pose proof (insert_columns_from_schema (H := plain_builtins) obliging Connected
                sample_form (sample_db [])
                ["username"; "email"; "age"]
                [VStr "asha"; VStr "Asha@example.org"; VNone]) as W.
  apply W. vm_compute. tauto.
Defined.

(** C8: a POST to [/submit] makes at most one INSERT; when it answers
    with the redirect to [/success] it has made exactly one, followed by
    the COMMIT that ends the calls, and the row is in the table. *)
Theorem one_insert_per_submit `{Builtins} (answers : server_behaviour)
    (l : link) (data : form) (d : database) :
  let '(resp, d', calls) := serve (submit answers l data) d in
  (count_inserts calls <= 1)%nat
  /\ (resp = redirect "/success" ->
      count_inserts calls = 1%nat
      /\ exists pre cols vals,
           calls = pre ++ [Insert cols vals; Commit]
           /\ rows d' = rows d ++ pending d ++ [combine cols vals]).
Proof.
  pose proof (submit_runs answers l data d) as Hrun.
  destruct (serve (submit answers l data) d) as [[resp d'] calls].
  destruct Hrun as [resp d' calls Hc _ _ _ Hne | pre c v Hp Hc _
                    | pre c v e Hp Hc _ | pre c v e Hp Hc _].
  - split; [lia | intros ->; contradiction].
  - rewrite count_inserts_app, Hc. cbn. split; [lia|].
    intros _. split; [reflexivity | eauto].
  - rewrite count_inserts_app, Hc. cbn. split; [lia|].
    intros Hr. now apply error_response_not_success in Hr.
  - rewrite count_inserts_app, Hc. cbn. split; [lia|].
    intros Hr. now apply error_response_not_success in Hr.
Qed.

Lemma one_insert_per_submit_witness :
  count_inserts (serve (submit (H := plain_builtins) obliging Connected sample_form)
                       (sample_db [])).2 = 1%nat
  /\ exists pre cols vals,
       (serve (submit (H := plain_builtins) obliging Connected sample_form)
              (sample_db [])).2 = pre ++ [Insert cols vals; Commit]
       /\ rows (serve (submit (H := plain_builtins) obliging Connected sample_form)
                      (sample_db [])).1.2
          = rows (sample_db []) ++ pending (sample_db []) ++ [combine cols vals].
Proof.
  pose proof (one_insert_per_submit (H := plain_builtins) obliging Connected
                sample_form (sample_db [])) as W.
  vm_compute in W. vm_compute. apply W. reflexivity.
Defined.

(** ** Candidates *)

Lemma candidates_of_age `{Builtins} (f : fields) :
  candidates_of f !! "age" = Some (of_int (age f)).
Proof.
  unfold candidates_of, dict_of. cbn [fold_left fst snd].
  apply lookup_insert_eq.
Qed.

Lemma candidate_age `{Builtins} (d : database) (data : form) :
  candidate (candidates_for d data) "age" = of_int (parse_age data).
Proof.
  unfold candidate, candidates_for, fill_user_id.
  destruct (schema_of d !! "user_id").
  - rewrite lookup_insert_ne by discriminate. now rewrite candidates_of_age.
  - now rewrite candidates_of_age.
Qed.

Lemma candidate_user_id `{Builtins} (d : database) (data : form) (t : option string) :
  schema_of d !! "user_id" = Some t ->
  candidate (candidates_for d data) "user_id"
  = user_id_candidate (default "" t) (collect data).
Proof.
  intros Ht. unfold candidate, candidates_for, fill_user_id. rewrite Ht.
  now rewrite lookup_insert_eq.
Qed.

Lemma integer_types_contain_int (dt : string) :
  In dt integer_types -> contains "int" dt = true.
Proof. intros [<- | [<- | [<- | []]]]; reflexivity. Qed.

(** An unparseable or absent [user_id] leaves the candidate at [None]
    whenever the type of the column passes the test ['int' in dt]. *)
Lemma user_id_candidate_none `{Builtins} (dt : string) (data : form) :
  contains "int" dt = true ->
  (form_get data "user_id" = None
   \/ exists s, form_get data "user_id" = Some s /\ py_int s = None) ->
  user_id_candidate dt (collect data) = VNone.
Proof.
  intros Hint Hraw. unfold user_id_candidate. rewrite Hint. cbn [raw_user_id collect].
  destruct Hraw as [-> | (s & -> & ->)]; reflexivity.
Qed.

Lemma not_inserted_without_value (schema : gmap string (option string))
    (candidates : gmap string value) (colmeta : gmap string meta) (col : string) :
  candidate candidates col = VNone ->
  has_default (colmeta !! col) = true ->
  ~ In col (spec_insert_columns schema candidates colmeta).
Proof.
  intros Hv Hd Hin. unfold spec_insert_columns in Hin.
  apply filter_In in Hin as [_ Hk]. unfold inserted in Hk.
  rewrite Hv, Hd in Hk. cbn in Hk. now rewrite andb_false_r in Hk.
Qed.

(** C4: when [user_id] is an integer column and the form's [user_id] is
    absent or not an integer, the candidate for [user_id] is [None];
    if the column has a default, [user_id] is then not among the columns
    selected, and no INSERT made by the handler lists it. *)
Theorem user_id_left_to_default `{Builtins} (d : database) (data : form) (dt : string) :
  schema_of d !! "user_id" = Some (Some dt) ->
  In dt integer_types ->
  (form_get data "user_id" = None
   \/ exists s, form_get data "user_id" = Some s /\ py_int s = None) ->
  candidate (candidates_for d data) "user_id" = VNone
  /\ (has_default (colmeta_in d !! "user_id") = true ->
      ~ In "user_id" (planned_insert d data).1
      /\ forall answers l cols vals,
           In (Insert cols vals) (serve (submit answers l data) d).2 ->
           ~ In "user_id" cols).
Proof.
  intros Hschema Hdt Hraw.
  assert (candidate (candidates_for d data) "user_id" = VNone) as Hnone.
  { rewrite (candidate_user_id d data (Some dt) Hschema). cbn [default].
    apply user_id_candidate_none; [now apply integer_types_contain_int | assumption]. }
  split; [assumption|]. intros Hdefault.
  pose proof (not_inserted_without_value (schema_of d) (candidates_for d data)
                (colmeta_in d) "user_id" Hnone Hdefault) as Hout.
  split.
  - now rewrite planned_insert_filter.
  - intros answers l cols vals Hin. apply insert_is_planned in Hin.
    rewrite planned_insert_filter in Hin.
    apply pair_equal_spec in Hin as [<- _]. assumption.
Qed.

Lemma user_id_left_to_default_witness :
  candidate (candidates_for (H := plain_builtins) (sample_db [])
               [("username", "asha"); ("user_id", "seven")]) "user_id" = VNone
  /\ (has_default (colmeta_in (sample_db []) !! "user_id") = true ->
      ~ In "user_id" (planned_insert (H := plain_builtins) (sample_db [])
                       [("username", "asha"); ("user_id", "seven")]).1
      /\ forall answers l cols vals,
           In (Insert cols vals)
              (serve (submit (H := plain_builtins) answers l
                        [("username", "asha"); ("user_id", "seven")])
                     (sample_db [])).2 ->
           ~ In "user_id" cols).
Proof.
  apply (user_id_left_to_default (H := plain_builtins) (sample_db [])
           [("username", "asha"); ("user_id", "seven")] "integer").
  - vm_compute. reflexivity.
  - cbn. tauto.
  - right. exists "seven". split; reflexivity.
Defined.

(** ** The age field *)

Lemma form_get_without_age (data : form) (k : string) :
  form_get (without_age data) k = if String.eqb k "age" then None else form_get data k.
Proof.
  unfold without_age.
  induction data as [|[k' v] data IH]; cbn [List.filter form_get fst].
  - now destruct (String.eqb k "age").
  - destruct (String.eqb k' "age") eqn:Ek'; cbn [negb form_get]; rewrite IH.
    + apply String.eqb_eq in Ek'. subst k'.
      rewrite (String.eqb_sym "age" k). now destruct (String.eqb k "age").
    + destruct (String.eqb k' k) eqn:Ek; [|reflexivity].
      apply String.eqb_eq in Ek. subst k'. now rewrite Ek'.
Qed.

Lemma parse_age_none `{Builtins} (data : form) :
  form_get data "age" = None
  \/ form_get data "age" = Some ""
  \/ (exists s, form_get data "age" = Some s /\ py_int s = None) ->
  parse_age data = None.
Proof.
  unfold parse_age. intros [-> | [-> | (s & -> & E)]]; [reflexivity..|].
  rewrite E. now destruct (truthy (Some s)).
Qed.

(** Taking the [age] field out changes nothing of what [submit] reads
    once the field yields no number. *)
Lemma collect_without_age `{Builtins} (data : form) :
  parse_age data = None -> collect (without_age data) = collect data.
Proof.
  intros Hage. unfold collect. rewrite Hage.
  replace (parse_age (without_age data)) with (@None Z)
    by (unfold parse_age; now rewrite form_get_without_age).
  now rewrite !form_get_without_age.
Qed.

(** The [except] clauses always end with a response; the page depends
    on the form, the status and the calls do not. *)
Lemma rescue_run `{Builtins} (answers : server_behaviour) (data : form)
    (e : exn) (c : conn) :
  exists c', rescue answers data e c = (inr (error_response data e), c')
             /\ forall data', rescue answers data' e c = (inr (error_response data' e), c').
Proof.
  unfold rescue, rollback_quietly, try_except, call, mbind, DB_bind, mret, DB_ret.
  destruct (answers (db c) Rollback); eauto.
Qed.

Lemma error_response_status `{Builtins} (data data' : form) (e : exn) :
  status (error_response data e) = status (error_response data' e).
Proof. unfold error_response. now destruct (exn_cls e). Qed.

(** No exception leaves [submit]. *)
Lemma submit_returns `{Builtins} (answers : server_behaviour) (l : link)
    (data : form) (c : conn) :
  exists resp, (submit answers l data c).1 = inr resp.
Proof.
  destruct l as [|err]; cbn; [|eauto].
  unfold try_except. destruct (submit_body answers (collect data) c) as [[e|resp] c'].
  - destruct (rescue_run answers data e c') as (c'' & -> & _). eauto.
  - eauto.
Qed.

(** Two forms from which [submit] reads the same values are handled by
    the same calls, with the same effect and the same status. *)
Lemma submit_same_fields `{Builtins} (answers : server_behaviour) (l : link)
    (data data' : form) (d : database) :
  collect data' = collect data ->
  let '(resp, d1, calls) := serve (submit answers l data) d in
  let '(resp', d1', calls') := serve (submit answers l data') d in
  status resp = status resp' /\ d1 = d1' /\ calls = calls'.
Proof.
  intros Hf. unfold serve. destruct l as [|err]; [|cbn; auto].
  cbn [submit]. rewrite Hf. unfold try_except.
  destruct (submit_body answers (collect data) _) as [[e|resp] c']; [|auto].
  destruct (rescue_run answers data e c') as (c'' & -> & Hany).
  rewrite (Hany data'). auto using error_response_status.
Qed.

Lemma in_combine_map {A B} (f : A -> B) (xs : list A) (x : A) (y : B) :
  In (x, y) (combine xs (map f xs)) -> y = f x.
Proof.
  induction xs as [|a xs IH]; cbn; [tauto|].
  intros [[= -> ->] | Hin]; auto.
Qed.

(** C9: a missing, empty or non-integer [age] is read as [None] without
    any exception; the candidate for the column [age] is then [None],
    every INSERT that lists [age] binds [None] to it, no exception
    leaves the handler, and the request is handled as the same form
    without an [age] field is: same status, same calls, same effect on
    the database. *)
Theorem unusable_age_is_none `{Builtins} (answers : server_behaviour) (l : link)
    (data : form) (d : database) :
  form_get data "age" = None
  \/ form_get data "age" = Some ""
  \/ (exists s, form_get data "age" = Some s /\ py_int s = None) ->
  parse_age data = None
  /\ candidate (candidates_for d data) "age" = VNone
  /\ (exists resp, (submit answers l data {| db := d; log := [] |}).1 = inr resp)
  /\ (forall cols vals v,
        In (Insert cols vals) (serve (submit answers l data) d).2 ->
        In ("age", v) (combine cols vals) -> v = VNone)
  /\ let '(resp, d1, calls) := serve (submit answers l data) d in
     let '(resp', d1', calls') := serve (submit answers l (without_age data)) d in
     status resp = status resp' /\ d1 = d1' /\ calls = calls'.
Proof.
  intros Hage. apply parse_age_none in Hage.
  assert (candidate (candidates_for d data) "age" = VNone) as Hcand
    by (now rewrite candidate_age, Hage).
  repeat split; try assumption.
  - apply submit_returns.
  - intros cols vals v Hin Hv. apply insert_is_planned in Hin.
    rewrite planned_insert_filter in Hin.
    apply pair_equal_spec in Hin as [<- <-].
    apply in_combine_map in Hv. now rewrite Hv.
  - apply submit_same_fields. now apply collect_without_age.
Qed.

Lemma unusable_age_is_none_witness :
  parse_age (H := plain_builtins) sample_form = None
  /\ status (serve (submit (H := plain_builtins) obliging Connected sample_form)
                   (sample_db [])).1.1 = 302.
Proof.
  destruct (unusable_age_is_none (H := plain_builtins) obliging Connected
              sample_form (sample_db [])) as (Hage & _).
  - right. right. exists "twelve". split; reflexivity.
  - split; [exact Hage | reflexivity].
Defined.

(** ** The table over time *)

Lemma db_status_reads_only (answers : server_behaviour) (l : link) (d : database) :
  let '(_, d', calls) := serve (db_status answers l) d in
  d' = d /\ count_inserts calls = 0%nat.
Proof. destruct l as [|err]; [walk|cbn]; auto. Qed.

(** One request, from a state with no transaction left open: the rows
    are kept as they are, at most one is added after them, and no
    transaction is left open. *)
Lemma handle_appends `{Builtins} (answers : server_behaviour) (w : world)
    (req : request) :
  pending (store w) = [] ->
  let w' := (handle answers w req).1.2 in
  (rows (store w') = rows (store w)
   \/ exists r, rows (store w') = rows (store w) ++ [r])
  /\ pending (store w') = [].
Proof.
  intros Hp. destruct req as [m data| | |data| | |]; cbn [handle].
  - destruct (login m data (user_session w)). cbn. auto.
  - cbn. auto.
  - cbn. auto.
  - pose proof (submit_runs answers (connection w) data (store w)) as Hrun.
    destruct (serve (submit answers (connection w) data) (store w)) as [[resp d'] calls].
    cbn. destruct Hrun as [resp d' calls _ _ Hr Hpend _ | | | ]; cbn.
    + split; [auto|]. destruct Hpend as [-> | ->]; auto.
    + rewrite Hp. cbn. eauto.
    + auto.
    + auto.
  - cbn. auto.
  - cbn. auto.
  - pose proof (db_status_reads_only answers (connection w) (store w)) as Hs.
    destruct (serve (db_status answers (connection w)) (store w)) as [[resp d'] calls].
    destruct Hs as [-> _]. cbn. auto.
Qed.

(** C7: no request updates or deletes a row of [registration].  From a
    state with no transaction left open, every request leaves the
    committed rows as they are or adds exactly one row after them; over
    any run of requests the rows present at the start stay where they
    are, unchanged, and at most one row per request is added. *)
Theorem rows_are_only_appended `{Builtins} (w : world) :
  pending (store w) = [] ->
  (forall answers req,
     rows (store (handle answers w req).1.2) = rows (store w)
     \/ exists r, rows (store (handle answers w req).1.2) = rows (store w) ++ [r])
  /\ forall reqs,
       (exists added,
          rows (store (run w reqs)) = rows (store w) ++ added
          /\ (length added <= length reqs)%nat)
       /\ forall (i : nat) (r : row),
            rows (store w) !! i = Some r ->
            rows (store (run w reqs)) !! i = Some r.
Proof.
  intros Hp. split.
  - intros answers req. now apply handle_appends.
  - intros reqs.
    assert (exists added,
              rows (store (run w reqs)) = rows (store w) ++ added
              /\ (length added <= length reqs)%nat) as Hadded.
    { revert w Hp. induction reqs as [|[answers req] reqs IH]; intros w Hp.
      - exists []. cbn. now rewrite app_nil_r.
      - cbn [run]. destruct (handle_appends answers w req Hp) as [Hrows Hp'].
        destruct (IH _ Hp') as (added & -> & Hlen).
        destruct Hrows as [-> | (r & ->)].
        + exists added. cbn. split; [reflexivity | lia].
        + exists (r :: added). rewrite <- app_assoc. cbn. split; [reflexivity | lia]. }
    split; [assumption|].
    destruct Hadded as (added & -> & _). intros i r Hi.
    now apply lookup_app_l_Some.
Qed.

Lemma rows_are_only_appended_witness :
  rows (store (run (H := plain_builtins)
                 {| connection := Connected;
                    store := sample_db [[("username", VStr "ravi")]];
                    user_session := ∅; template := TemplateNotFound |}
                 [(obliging, ReqSubmit sample_form); (obliging, ReqLogout)])) !! 0%nat
  = Some [("username", VStr "ravi")].
Proof.
  apply (rows_are_only_appended (H := plain_builtins)
           {| connection := Connected;
              store := sample_db [[("username", VStr "ravi")]];
              user_session := ∅; template := TemplateNotFound |}).
  - reflexivity.
  - reflexivity.
Defined.

(** ** Duplicates *)

(** Answering the next call from what is known of the server. *)
Ltac answer Hq :=
  match goal with
  | |- context [match ?a ?d ?o with _ => _ end] =>
      lazymatch type of a with
      | server_behaviour => rewrite (Hq o eq_refl)
      end
  end; tidy.

Lemma in_use_truthy (d : database) (e : option string) :
  email_in_use d e -> truthy e = true.
Proof. intros (s & t & r & -> & Hs & _). apply truthy_nonempty. eauto. Qed.

Lemma username_in_use_truthy (d : database) (u : option string) :
  username_in_use d u -> truthy u = true.
Proof. intros (s & r & -> & Hs & _). apply truthy_nonempty. eauto. Qed.

Lemma email_found (d : database) (e : string) :
  email_in_use d (Some e) -> existsb (email_matches e) (visible d) = true.
Proof.
  intros (s & t & r & [= <-] & _ & Hin & Hr & Hl).
  apply existsb_exists. exists r. split.
  - unfold visible. apply in_or_app. now left.
  - unfold email_matches. rewrite Hr, Hl. apply String.eqb_refl.
Qed.

Lemma username_found (d : database) (u : string) :
  username_in_use d (Some u) -> existsb (username_matches u) (visible d) = true.
Proof.
  intros (s & r & [= <-] & _ & Hin & Hr).
  apply existsb_exists. exists r. split.
  - unfold visible. apply in_or_app. now left.
  - unfold username_matches. rewrite Hr. apply String.eqb_refl.
Qed.

(** C1, as amended: when the database is connected and answers the
    catalogue queries and the duplicate checks, a form whose email is
    not empty and matches the email of a registration row up to case,
    or whose username is not empty and is the username of a row, is
    answered with status 409 and the page "Email already registered" or
    "Username already taken"; no INSERT is made and the rows are left as
    they are. *)
Theorem duplicate_is_refused `{Builtins} (answers : server_behaviour)
    (data : form) (d : database) :
  (forall o, is_query o = true -> answers d o = None) ->
  email_in_use d (email (collect data))
  \/ username_in_use d (username (collect data)) ->
  let '(resp, d', calls) := serve (submit answers Connected data) d in
  status resp = 409
  /\ ((exists e, email (collect data) = Some e
                 /\ resp_body resp = Html (email_taken_page e))
      \/ (exists u, username (collect data) = Some u
                    /\ resp_body resp = Html (username_taken_page u)))
  /\ count_inserts calls = 0%nat
  /\ rows d' = rows d.
Proof.
  intros Hq Huse.
  (* the email check finds nothing or is skipped: the username decides *)
  assert (forall c0 : conn, db c0 = d ->
            ~ email_in_use d (email (collect data)) ->
            exists u c1,
              username (collect data) = Some u
              /\ check_username answers (collect data) c0
                 = (inr (Some (page (username_taken_page u) 409)), c1)
              /\ rows (db c1) = rows d
              /\ count_inserts (log c1) = count_inserts (log c0)) as Hname.
  { intros [d0 calls0] Hd Hno. cbn in Hd. subst d0.
    destruct Huse as [He | Hu]; [contradiction|].
    pose proof (username_in_use_truthy _ _ Hu) as Htu.
    destruct (username (collect data)) as [u|] eqn:Eu; [|discriminate].
    exists u. unfold check_username. rewrite Eu, Htu. unfold_views; tidy.
    answer Hq. rewrite (username_found _ _ Hu). tidy.
    destruct (answers d Rollback); tidy; eexists;
      (split; [reflexivity|]); (split; [reflexivity|]); (split; [reflexivity|]);
      cbn [log]; rewrite !count_inserts_app; cbn; lia. }
  unfold serve, submit, submit_body, rescue, fetch_schema, fetch_meta,
    check_duplicates, duplicate_checks, check_email, query, call, try_except,
    mbind, DB_bind, mret, DB_ret; tidy.
  do 2 answer Hq.
  destruct (email (collect data)) as [e|] eqn:Ee.
  - destruct (truthy (Some e)) eqn:Hte; tidy.
    + answer Hq. destruct (existsb (email_matches e) (visible d)) eqn:Hfe; tidy.
      * unfold rollback_quietly, try_except, call. tidy.
        destruct (answers d Rollback); cbn; eauto 10.
      * edestruct Hname as (u & c1 & -> & -> & Hrows & Hcount); [reflexivity| |].
        { intros He. apply email_found in He. congruence. }
        rewrite Hrows, Hcount. cbn. eauto 10.
    + edestruct Hname as (u & c1 & -> & -> & Hrows & Hcount); [reflexivity| |].
      { intros He. apply in_use_truthy in He. congruence. }
      rewrite Hrows, Hcount. cbn. eauto 10.
  - edestruct Hname as (u & c1 & -> & -> & Hrows & Hcount); [reflexivity| |].
    { intros He. apply in_use_truthy in He. discriminate. }
    rewrite Hrows, Hcount. cbn. eauto 10.
Qed.

Lemma duplicate_is_refused_witness :
  status (serve (submit (H := plain_builtins) obliging Connected same_email_form)
                (sample_db [asha_row])).1.1 = 409
  /\ rows (serve (submit (H := plain_builtins) obliging Connected same_email_form)
                 (sample_db [asha_row])).1.2 = [asha_row].
Proof.
  assert (forall o, is_query o = true -> obliging (sample_db [asha_row]) o = None)
    as Hq by reflexivity.
  assert (email_in_use (sample_db [asha_row])
            (email (collect (H := plain_builtins) same_email_form))
          \/ username_in_use (sample_db [asha_row])
               (username (collect (H := plain_builtins) same_email_form))) as Huse.
  { left. exists "ASHA@example.org", "asha@example.org", asha_row.
    repeat split; [discriminate | now left]. }
  pose proof (duplicate_is_refused (H := plain_builtins) obliging same_email_form
                (sample_db [asha_row]) Hq Huse) as W.
  vm_compute in W. vm_compute. tauto.
Defined.

(** The blank email of [blank_email_row] is what [blank_email_form]
    itself leaves in the table. *)
Example blank_email_is_stored :
  rows (serve (submit (H := plain_builtins) obliging Connected
                 [("username", "asha"); ("email", "")])
              (sample_db [])).1.2
  = [blank_email_row].
Proof. vm_compute. reflexivity. Qed.

(** C1, as stated, fails: a blank email equal to the blank email of a
    row is not looked up, and the form is inserted; when the check
    itself raises, the handler goes on to the INSERT and the answer is
    not 409 (with [failing_email_lookup], the page "Error saving data",
    status 200); and without a connection the answer is 500. *)
Lemma duplicate_not_always_refused :
  ~ refuses_every_duplicate (H := plain_builtins) obliging Connected
      blank_email_form (sample_db [blank_email_row])
  /\ ~ refuses_every_duplicate (H := plain_builtins) failing_email_lookup Connected
         same_email_form (sample_db [asha_row])
  /\ ~ refuses_every_duplicate (H := plain_builtins) obliging
         (NotConnected "connection refused")
         same_email_form (sample_db [asha_row]).
Proof.
  repeat split; intros Hclaim; unfold refuses_every_duplicate in Hclaim.
  - assert (exists r e t, In r (rows (sample_db [blank_email_row]))
              /\ email (collect (H := plain_builtins) blank_email_form) = Some e
              /\ row_get r "email" = VStr t /\ lower t = lower e) as Hdup.
    { exists blank_email_row, "", "". repeat split. now left. }
    specialize (Hclaim (or_introl Hdup)). vm_compute in Hclaim.
    destruct Hclaim as [Hs _]. discriminate Hs.
  - assert (exists r e t, In r (rows (sample_db [asha_row]))
              /\ email (collect (H := plain_builtins) same_email_form) = Some e
              /\ row_get r "email" = VStr t /\ lower t = lower e) as Hdup.
    { exists asha_row, "ASHA@example.org", "asha@example.org".
      repeat split. now left. }
    specialize (Hclaim (or_introl Hdup)). vm_compute in Hclaim.
    destruct Hclaim as [Hs _]. discriminate Hs.
  - assert (exists r e t, In r (rows (sample_db [asha_row]))
              /\ email (collect (H := plain_builtins) same_email_form) = Some e
              /\ row_get r "email" = VStr t /\ lower t = lower e) as Hdup.
    { exists asha_row, "ASHA@example.org", "asha@example.org".
      repeat split. now left. }
    specialize (Hclaim (or_introl Hdup)). vm_compute in Hclaim.
    destruct Hclaim as [Hs _]. discriminate Hs.
Qed.

(** What the two runs with a connection leave in the table. *)
Example blank_email_twice :
  serve (submit (H := plain_builtins) obliging Connected blank_email_form)
        (sample_db [blank_email_row])
  = (redirect "/success",
     sample_db [blank_email_row;
                [("username", VStr "ravi"); ("email", VStr ""); ("age", VNone)]],
     [SelectSchema; SelectMeta; SelectUsername "ravi";
      Insert ["username"; "email"; "age"] [VStr "ravi"; VStr ""; VNone];
      Commit]).
Proof. vm_compute. reflexivity. Qed.

Example failed_check_is_not_a_refusal :
  serve (submit (H := plain_builtins) failing_email_lookup Connected same_email_form)
        (sample_db [asha_row])
  = (ok_page (error_saving_page (H := plain_builtins) in_failed_transaction
                same_email_form),
     sample_db [asha_row],
     [SelectSchema; SelectMeta; SelectEmail "ASHA@example.org";
      Insert ["username"; "email"; "age"]
             [VStr "ravi"; VStr "ASHA@example.org"; VNone];
      Rollback]).
Proof. vm_compute. reflexivity. Qed.

(** ** The checks are best-effort *)

(** What the duplicate checks can do: raise nothing, answer 409 after
    a ROLLBACK, or let the handler go on with the database as it was;
    they make no INSERT in any case. *)
Lemma check_duplicates_run `{Builtins} (answers : server_behaviour) (f : fields)
    (c : conn) :
  exists r c',
    check_duplicates answers f c = (inr r, c')
    /\ columns (db c') = columns (db c)
    /\ rows (db c') = rows (db c)
    /\ count_inserts (log c') = count_inserts (log c)
    /\ match r with
       | Some resp => status resp = 409
       | None => db c' = db c
       end.
Proof.
  destruct c as [d calls].
  unfold check_duplicates, duplicate_checks, check_email, check_username,
    rollback_quietly, query, call, try_except, mbind, DB_bind, mret, DB_ret.
  tidy. repeat branch.
  all: do 2 eexists; (split; [reflexivity|]); cbn [db log columns rows];
       rewrite ?count_inserts_app; cbn; repeat split; lia.
Qed.

(** The inner [try] turns an exception of the checks into "go on". *)
Lemma check_duplicates_swallows `{Builtins} (answers : server_behaviour)
    (f : fields) (c c' : conn) (e : exn) :
  duplicate_checks answers f c = (inl e, c') ->
  check_duplicates answers f c = (inr None, c').
Proof. unfold check_duplicates, try_except. now intros ->. Qed.

(** A check that raises has changed nothing in the database. *)
Lemma duplicate_checks_raise `{Builtins} (answers : server_behaviour)
    (f : fields) (c c' : conn) (e : exn) :
  duplicate_checks answers f c = (inl e, c') ->
  db c' = db c /\ exists called, log c' = log c ++ called /\ count_inserts called = 0%nat.
Proof.
  destruct c as [d calls].
  unfold duplicate_checks, check_email, check_username,
    rollback_quietly, query, call, try_except, mbind, DB_bind, mret, DB_ret.
  tidy. repeat branch.
  all: intros [= <- <-] || discriminate.
  all: cbn [db log]; split; [reflexivity|].
  all: rewrite <- ?app_assoc; eexists; split; [reflexivity|]; reflexivity.
Qed.

(** ** Required columns *)

Lemma required_missing_true (colmeta : gmap string meta) (col : string) (val : value) :
  required_missing colmeta col val = true
  <-> (exists m, colmeta !! col = Some m
                 /\ meta_is_nullable m = "NO" /\ meta_default m = None)
      /\ val = VNone.
Proof.
  unfold required_missing. split.
  - destruct (colmeta !! col) as [m|]; [|discriminate].
    rewrite !andb_true_iff, negb_true_iff, String.eqb_eq. cbn.
    intros [[Hn Hd] Hv]. split.
    + exists m. repeat split; [assumption|]. now destruct (meta_default m).
    + now destruct val.
  - intros [(m & -> & Hn & Hd) ->]. cbn. rewrite Hn, Hd. reflexivity.
Qed.

(** Lines 204-215 on the chosen columns: a required column without
    value stops the handler before it calls the database. *)
Lemma insert_registration_required (answers : server_behaviour)
    (schema : gmap string (option string)) (candidates : gmap string value)
    (colmeta : gmap string meta) (c : conn) (col0 : string) :
  In col0 (spec_insert_columns schema candidates colmeta) ->
  required_missing colmeta col0 (candidate candidates col0) = true ->
  exists col,
    In col (spec_insert_columns schema candidates colmeta)
    /\ required_missing colmeta col (candidate candidates col) = true
    /\ insert_registration answers schema candidates colmeta c
       = (inr (page (required_page col) 400), c).
Proof.
  intros Hin Hreq. unfold insert_registration.
  rewrite select_columns_filter.
  remember (spec_insert_columns schema candidates colmeta) as cols eqn:Ecols.
  destruct (first_required_missing colmeta cols (map (candidate candidates) cols))
    as [col|] eqn:Efirst.
  - apply first_required_missing_some in Efirst as [Hcol Hmiss].
    exists col. destruct cols; [contradiction|]. auto.
  - pose proof (first_required_missing_none _ _ _ Efirst col0 Hin). congruence.
Qed.

(** C5: when the handler gets as far as choosing the columns (the
    database is connected, the catalogue queries are answered and the
    duplicate checks have not answered 409) and one of the chosen columns
    is NOT NULL, has no default and has no value, the answer is the 400
    page naming such a column; no INSERT is made and the database is left
    as it was. *)
Theorem missing_required_column_is_refused `{Builtins}
    (answers : server_behaviour) (data : form) (d : database) :
  answers d SelectSchema = None ->
  answers d SelectMeta = None ->
  (exists col, required_without_value d data col) ->
  let '(resp, d', calls) := serve (submit answers Connected data) d in
  status resp <> 409 ->
  (exists col, required_without_value d data col
               /\ resp = page (required_page col) 400)
  /\ count_inserts calls = 0%nat
  /\ d' = d.
Proof.
  intros Hschema Hmeta (col0 & Hin & Hm & Hv).
  rewrite planned_insert_filter in Hin. cbn [fst] in Hin.
  assert (required_missing (colmeta_in d) col0 (candidate (candidates_for d data) col0)
          = true) as Hreq by (apply required_missing_true; auto).
  unfold serve, submit, submit_body, fetch_schema, fetch_meta, query, call,
    try_except, mbind, DB_bind, mret, DB_ret. tidy.
  rewrite Hschema. tidy. rewrite Hmeta. tidy.
  change (dict_of (map (fun c => (column_name c, data_type c)) (columns d)))
    with (schema_of d).
  change (colmeta_of _) with (colmeta_in d).
  change (fill_user_id (schema_of d) (collect data) (candidates_of (collect data)))
    with (candidates_for d data).
  match goal with
  | |- context [check_duplicates ?a ?f ?c] =>
      destruct (check_duplicates_run a f c)
        as (early & c' & -> & _ & _ & Hcount & Hearly)
  end.
  destruct early as [resp|]; cbn [db log] in *.
  - intros Hstatus. contradiction.
  - destruct (insert_registration_required answers (schema_of d)
                (candidates_for d data) (colmeta_in d) c' col0 Hin Hreq)
      as (col & Hcol & Hmiss & ->).
    intros _. split; [|auto].
    exists col. split; [|reflexivity].
    apply required_missing_true in Hmiss as [Hm' Hv'].
    repeat split; [|assumption..].
    rewrite planned_insert_filter. assumption.
Qed.

Lemma missing_required_column_is_refused_witness :
  (exists col,
     required_without_value (H := plain_builtins) (sample_db [])
       [("email", "asha@example.org")] col
     /\ (serve (submit (H := plain_builtins) obliging Connected
                  [("email", "asha@example.org")]) (sample_db [])).1.1
        = page (required_page col) 400)
  /\ count_inserts (serve (submit (H := plain_builtins) obliging Connected
                             [("email", "asha@example.org")]) (sample_db [])).2
     = 0%nat
  /\ (serve (submit (H := plain_builtins) obliging Connected
               [("email", "asha@example.org")]) (sample_db [])).1.2
     = sample_db [].
Proof.
  assert (exists col, required_without_value (H := plain_builtins) (sample_db [])
                        [("email", "asha@example.org")] col) as Hcol.
  { exists "username". split; [|split].
    - vm_compute. tauto.
    - eexists. split; [vm_compute; reflexivity|]. split; reflexivity.
    - vm_compute. reflexivity. }
  pose proof (missing_required_column_is_refused (H := plain_builtins) obliging
                [("email", "asha@example.org")] (sample_db [])
                eq_refl eq_refl Hcol) as W.
  destruct (serve (submit (H := plain_builtins) obliging Connected
                     [("email", "asha@example.org")]) (sample_db []))
    as [[resp d'] calls] eqn:E.
  cbn [fst snd]. apply W.
  vm_compute in E. injection E as <- _ _. discriminate.
Defined.

(** Once the columns are chosen and none is missing, the INSERT is
    made. *)
Lemma insert_registration_calls (answers : server_behaviour)
    (schema : gmap string (option string)) (candidates : gmap string value)
    (colmeta : gmap string meta) (c : conn)
    (cols : list string) (vals : list value) :
  select_columns schema candidates colmeta = (cols, vals) ->
  cols <> [] ->
  first_required_missing colmeta cols vals = None ->
  exists r c', insert_registration answers schema candidates colmeta c = (r, c')
               /\ exists after, log c' = log c ++ Insert cols vals :: after.
Proof.
  intros Hsel Hcols Hfirst. unfold insert_registration. rewrite Hsel, Hfirst.
  destruct cols as [|col cols]; [contradiction|].
  unfold call, mbind, DB_bind, mret, DB_ret. tidy. repeat branch.
  all: do 2 eexists; split; [reflexivity|]; cbn [log].
  all: rewrite <- ?app_assoc; eexists; reflexivity.
Qed.

(** ** With a unique constraint in the database *)

Lemma without_duplicates_snoc (table : list row) (r : row) :
  without_duplicates table ->
  existsb (clash r) table = false ->
  without_duplicates (table ++ [r]).
Proof.
  intros Htable Hr before r' after Heq.
  destruct after as [|x after _] using rev_ind.
  - apply app_inj_tail in Heq as [<- <-]. assumption.
  - rewrite app_comm_cons, app_assoc in Heq.
    apply app_inj_tail in Heq as [-> _]. now apply (Htable before r' after).
Qed.

(** Whatever the checks of the handler do, a table without duplicates
    stays so under [submit] when the server enforces uniqueness. *)
Lemma uniqueness_is_kept `{Builtins} (answers : server_behaviour) (l : link)
    (data : form) (d : database) :
  enforces_uniqueness answers ->
  pending d = [] ->
  without_duplicates (rows d) ->
  without_duplicates (rows (serve (submit answers l data) d).1.2).
Proof.
  intros Henf Hp Hd.
  pose proof (submit_runs answers l data d) as Hrun.
  destruct (serve (submit answers l data) d) as [[resp d'] calls]. cbn [fst snd].
  destruct Hrun as [resp d' calls _ _ -> _ _ | pre c v _ _ Hans | | ]; cbn [rows];
    try assumption.
  rewrite Hp. cbn [app]. apply without_duplicates_snoc; [assumption|].
  destruct (existsb (clash (combine c v)) (rows d)) eqn:E; [|reflexivity].
  destruct (Henf d c v) as (ue & Hue & _); [|congruence].
  unfold visible. now rewrite Hp, app_nil_r.
Qed.

Lemma unique_index_enforces : enforces_uniqueness unique_index.
Proof.
  intros d cols vals Hclash. exists unique_violation.
  unfold unique_index. now rewrite Hclash.
Qed.

Lemma single_row_without_duplicates (r : row) : without_duplicates [r].
Proof.
  intros before r' after Heq. destruct before as [|x before]; [reflexivity|].
  injection Heq as _ Heq. now destruct before.
Qed.

(** C2: the duplicate checks never end the handler with an exception;
    when they raise, the handler goes on and, the columns being chosen
    and none missing, makes the INSERT; and when the INSERT raises
    [UniqueViolation] the handler rolls back, answers with the 400 page
    "Duplicate value", and leaves the rows of the table as they were,
    with no transaction open.  So, with a server that enforces
    uniqueness, a table without duplicates has none after the request,
    whatever the checks did. *)
Theorem duplicate_check_is_best_effort `{Builtins} (answers : server_behaviour)
    (data : form) (d : database) :
  (forall c, exists r c', check_duplicates answers (collect data) c = (inr r, c'))
  /\ (forall e c' cols vals,
        answers d SelectSchema = None ->
        answers d SelectMeta = None ->
        duplicate_checks answers (collect data)
          {| db := d; log := [SelectSchema; SelectMeta] |} = (inl e, c') ->
        planned_insert d data = (cols, vals) ->
        cols <> [] ->
        first_required_missing (colmeta_in d) cols vals = None ->
        In (Insert cols vals) (serve (submit answers Connected data) d).2)
  /\ (forall cols vals ue,
        In (Insert cols vals) (serve (submit answers Connected data) d).2 ->
        answers d (Insert cols vals) = Some ue ->
        exn_cls ue = UniqueViolation ->
        let '(resp, d', calls) := serve (submit answers Connected data) d in
        resp = page (duplicate_page ue) 400
        /\ (exists pre, calls = pre ++ [Insert cols vals; Rollback])
        /\ rows d' = rows d
        /\ pending d' = [])
  /\ (enforces_uniqueness answers ->
      pending d = [] ->
      without_duplicates (rows d) ->
      without_duplicates (rows (serve (submit answers Connected data) d).1.2)).
Proof.
  split; [|split; [|split]]; [| | |apply uniqueness_is_kept].
  - intros c. destruct (check_duplicates_run answers (collect data) c)
      as (r & c' & Hrun & _). eauto.
  - intros e c' cols vals Hschema Hmeta Hraise Hplan Hcols Hfirst.
    unfold serve, submit, submit_body, fetch_schema, fetch_meta, query, call,
      mbind, DB_bind, mret, DB_ret. unfold try_except at 1. tidy.
    rewrite Hschema. tidy. rewrite Hmeta. tidy.
    rewrite (check_duplicates_swallows _ _ _ _ _ Hraise).
    change (dict_of (map (fun c => (column_name c, data_type c)) (columns d)))
      with (schema_of d).
    change (colmeta_of _) with (colmeta_in d).
    change (fill_user_id (schema_of d) (collect data) (candidates_of (collect data)))
      with (candidates_for d data).
    rewrite planned_insert_eq in Hplan.
    destruct (insert_registration_calls answers (schema_of d) (candidates_for d data)
                (colmeta_in d) c' cols vals Hplan Hcols Hfirst)
      as (r & c'' & -> & after & Hlog).
    assert (In (Insert cols vals) (log c'')) as Hin
      by (rewrite Hlog; apply in_or_app; right; now left).
    destruct r as [e'|resp]; [|exact Hin].
    destruct (rescue_run answers data e' c'') as (c3 & Hrescue & _).
    revert Hrescue. unfold rescue, rollback_quietly, try_except, call,
      mbind, DB_bind, mret, DB_ret.
    destruct (answers (db c'') Rollback); intros [= <-]; cbn [snd log];
      apply in_or_app; now left.
  - intros cols vals ue Hin Hue Hcls.
    pose proof (submit_runs answers Connected data d) as Hrun.
    destruct (serve (submit answers Connected data) d) as [[resp d'] calls].
    cbn [snd] in Hin.
    assert (forall pre c v after,
              count_inserts pre = 0%nat ->
              In (Insert cols vals) (pre ++ Insert c v :: after) ->
              count_inserts after = 0%nat -> c = cols /\ v = vals) as Hsame.
    { intros pre c v after Hpre Hin' Hafter.
      apply in_app_or in Hin' as [Hin' | [[= -> ->] | Hin']]; [|auto|].
      - now apply count_inserts_none with (cols := cols) (vals := vals) in Hpre.
      - now apply count_inserts_none with (cols := cols) (vals := vals) in Hafter. }
    destruct Hrun as [resp d' calls Hc _ _ _ _ | pre c v Hp Hc Hans
                      | pre c v e Hp Hc Hans | pre c v e Hp Hc Hans].
    + now apply count_inserts_none with (cols := cols) (vals := vals) in Hc.
    + destruct (Hsame pre c v [Commit] Hc Hin eq_refl) as [-> ->]. congruence.
    + destruct (Hsame pre c v [Rollback] Hc Hin eq_refl) as [-> ->].
      assert (e = ue) as -> by congruence.
      unfold error_response. rewrite Hcls. cbn. eauto.
    + destruct (Hsame pre c v [Commit; Rollback] Hc Hin eq_refl) as [-> ->].
      congruence.
Qed.

Lemma duplicate_check_is_best_effort_witness :
  In (Insert ["username"; "email"; "age"]
        [VStr "ravi"; VStr "ASHA@example.org"; VNone])
     (serve (submit (H := plain_builtins) failing_email_lookup Connected
               same_email_form) (sample_db [asha_row])).2
  /\ (serve (submit (H := plain_builtins) unique_index Connected
               blank_email_form) (sample_db [blank_email_row])).1
     = (page (duplicate_page unique_violation) 400, sample_db [blank_email_row])
  /\ without_duplicates
       (rows (serve (submit (H := plain_builtins) unique_index Connected
                       blank_email_form) (sample_db [blank_email_row])).1.2).
Proof.
  split; [|split].
  - (* the lookup by email raises: the INSERT is made all the same *)
    destruct (duplicate_check_is_best_effort (H := plain_builtins)
                failing_email_lookup same_email_form (sample_db [asha_row]))
      as (_ & Hgo & _).
    apply Hgo with
      (e := operational_error)
      (c' := {| db := sample_db [asha_row];
                log := [SelectSchema; SelectMeta; SelectEmail "ASHA@example.org"] |}).
    + reflexivity.
    + reflexivity.
    + vm_compute. reflexivity.
    + vm_compute. reflexivity.
    + discriminate.
    + vm_compute. reflexivity.
  - (* a blank email is not looked up: the unique index refuses it *)
    destruct (duplicate_check_is_best_effort (H := plain_builtins)
                unique_index blank_email_form (sample_db [blank_email_row]))
      as (_ & _ & Hdup & _).
    assert (In (Insert ["username"; "email"; "age"] [VStr "ravi"; VStr ""; VNone])
               (serve (submit (H := plain_builtins) unique_index Connected
                         blank_email_form) (sample_db [blank_email_row])).2) as Hin
      by (vm_compute; tauto).
    assert (unique_index (sample_db [blank_email_row])
              (Insert ["username"; "email"; "age"] [VStr "ravi"; VStr ""; VNone])
            = Some unique_violation) as Hraise by (vm_compute; reflexivity).
    specialize (Hdup _ _ _ Hin Hraise eq_refl).
    destruct (serve (submit (H := plain_builtins) unique_index Connected
                       blank_email_form) (sample_db [blank_email_row]))
      as [[resp d'] calls] eqn:E.
    destruct Hdup as (-> & _ & _ & _).
    vm_compute in E. injection E as <- _. reflexivity.
  - apply (duplicate_check_is_best_effort (H := plain_builtins)
             unique_index blank_email_form (sample_db [blank_email_row])).
    + exact unique_index_enforces.
    + reflexivity.
    + apply single_row_without_duplicates.
Defined.

(** * Further properties *)

(** ** Refusals *)

Ltac not_among Hin :=
  cbn in Hin; repeat (destruct Hin as [Hin | Hin]; [discriminate Hin|]); contradiction.



(** A lookup by email that is answered and finds a row. *)
Lemma email_lookup_hit `{Builtins} (answers : server_behaviour)
    (data : form) (d : database) (e : string) :
  answers d SelectSchema = None ->
  answers d SelectMeta = None ->
  email (collect data) = Some e ->
  e <> "" ->
  answers d (SelectEmail e) = None ->
  (exists r, In r (visible d) /\ email_matches e r = true) ->
  serve (submit answers Connected data) d
  = (page (email_taken_page e) 409,
     {| columns := columns d; rows := rows d; pending := [] |},
     [SelectSchema; SelectMeta; SelectEmail e; Rollback]).
Proof.
  intros Hschema Hmeta Hemail Hne Hlookup Hrow.
  assert (truthy (Some e) = true) as Htrue by (apply truthy_nonempty; eauto).
  assert (existsb (email_matches e) (visible d) = true) as Hfound
    by (now apply existsb_exists).
  unfold_views. tidy. rewrite Hschema. tidy. rewrite Hmeta. tidy.
  rewrite Hemail, Htrue. tidy. rewrite Hlookup. tidy. rewrite Hfound. tidy.
  now destruct (answers _ Rollback).
Qed.

(** X2: the email is looked up first, and a match ends the request at
    once: the page is "Email already registered" even when the username
    is taken as well, the username is not looked up, and the calls are
    exactly the two catalogue queries, the lookup and the ROLLBACK. *)
Theorem email_refusal_comes_first `{Builtins} (answers : server_behaviour)
    (data : form) (d : database) (e : string) :
  answers d SelectSchema = None ->
  answers d SelectMeta = None ->
  email (collect data) = Some e ->
  e <> "" ->
  answers d (SelectEmail e) = None ->
  (exists r, In r (visible d) /\ email_matches e r = true) ->
  serve (submit answers Connected data) d
  = (page (email_taken_page e) 409,
     {| columns := columns d; rows := rows d; pending := [] |},
     [SelectSchema; SelectMeta; SelectEmail e; Rollback]).
Proof. apply email_lookup_hit. Qed.

Lemma email_refusal_comes_first_witness :
  serve (submit (H := plain_builtins) obliging Connected
           [("username", "asha"); ("email", "ASHA@example.org")])
        (sample_db [asha_row])
  = (page (email_taken_page "ASHA@example.org") 409,
     sample_db [asha_row],
     [SelectSchema; SelectMeta; SelectEmail "ASHA@example.org"; Rollback]).
Proof.
  apply (email_refusal_comes_first (H := plain_builtins) obliging
           [("username", "asha"); ("email", "ASHA@example.org")]
           (sample_db [asha_row]) "ASHA@example.org");
    try reflexivity.
  - discriminate.
  - exists asha_row. split; [now left | reflexivity].
Defined.

(** X3: when the lookup by email raises, the exception leaves the
    whole [try] block: the username is not looked up either, so the
    request is never answered 409, even if the username is taken. *)
Theorem failed_email_lookup_skips_username `{Builtins}
    (answers : server_behaviour) (data : form) (d : database)
    (e : string) (x : exn) :
  answers d SelectSchema = None ->
  answers d SelectMeta = None ->
  email (collect data) = Some e ->
  e <> "" ->
  answers d (SelectEmail e) = Some x ->
  let '(resp, _, calls) := serve (submit answers Connected data) d in
  status resp <> 409
  /\ In (SelectEmail e) calls
  /\ forall u, ~ In (SelectUsername u) calls.
Proof.
  intros Hschema Hmeta Hemail Hne Hlookup.
  assert (truthy (Some e) = true) as Htrue by (apply truthy_nonempty; eauto).
  unfold_views. tidy. rewrite Hschema. tidy. rewrite Hmeta. tidy.
  rewrite Hemail, Htrue. tidy. rewrite Hlookup. tidy.
  repeat branch.
  all: split; [cbn; unfold error_response; try destruct (exn_cls _); cbn; discriminate|].
  all: split; [cbn; tauto|].
  all: intros u Hin; not_among Hin.
Qed.

Lemma failed_email_lookup_skips_username_witness :
  status (serve (submit (H := plain_builtins) failing_email_lookup Connected
                   [("username", "asha"); ("email", "new@example.org")])
                (sample_db [asha_row])).1.1 <> 409.
Proof.
  pose proof (failed_email_lookup_skips_username (H := plain_builtins)
                failing_email_lookup
                [("username", "asha"); ("email", "new@example.org")]
                (sample_db [asha_row]) "new@example.org" operational_error
                eq_refl eq_refl eq_refl ltac:(discriminate) eq_refl) as W.
  destruct (serve _ _) as [[resp d'] calls]. apply W.
Defined.

(** ** Failures *)

Lemma error_response_rescue_status `{Builtins} (data : form) (e : exn) :
  status (error_response data e) = rescue_status e.
Proof. unfold error_response, rescue_status. now destruct (exn_cls e). Qed.

(** X4: when a catalogue query raises, the handler makes no other call
    than the ROLLBACK and answers with the page of the [except] clause
    of the exception: status 400 for an integrity error, and 200, not an
    error status, for any other exception. *)
Theorem catalogue_failure `{Builtins} (answers : server_behaviour)
    (data : form) (d : database) (e : exn) :
  answers d SelectSchema = Some e
  \/ (answers d SelectSchema = None /\ answers d SelectMeta = Some e) ->
  let '(resp, d', calls) := serve (submit answers Connected data) d in
  resp = error_response data e
  /\ status resp = rescue_status e
  /\ (calls = [SelectSchema; Rollback] \/ calls = [SelectSchema; SelectMeta; Rollback])
  /\ rows d' = rows d
  /\ pending d' = [].
Proof.
  intros [Hschema | [Hschema Hmeta]]; unfold_views; tidy; rewrite Hschema; tidy.
  - destruct (answers _ Rollback); cbn; auto using error_response_rescue_status.
  - rewrite Hmeta. tidy.
    destruct (answers _ Rollback); cbn; auto 6 using error_response_rescue_status.
Qed.

Lemma catalogue_failure_witness :
  status (serve (submit (H := plain_builtins)
                   (fun _ o => match o with
                               | SelectSchema => Some operational_error
                               | _ => None
                               end)
                   Connected sample_form) (sample_db [])).1.1 = 200.
Proof.
  pose proof (catalogue_failure (H := plain_builtins)
                (fun _ o => match o with
                            | SelectSchema => Some operational_error
                            | _ => None
                            end)
                sample_form (sample_db []) operational_error
                (or_introl eq_refl)) as W.
  destruct (serve _ _) as [[resp d'] calls].
  destruct W as (_ & Hstatus & _). cbn [fst]. rewrite Hstatus. reflexivity.
Defined.

(** X5: when the INSERT raises, whatever the exception, nothing is
    committed: the handler rolls back at once and answers with the page
    of the [except] clause of the exception (400 "Data integrity error"
    for an [IntegrityError] such as a NOT NULL violation, 200 "Error
    saving data" for any other exception). *)
Theorem insert_failure `{Builtins} (answers : server_behaviour) (l : link)
    (data : form) (d : database) (cols : list string) (vals : list value)
    (e : exn) :
  In (Insert cols vals) (serve (submit answers l data) d).2 ->
  answers d (Insert cols vals) = Some e ->
  let '(resp, d', calls) := serve (submit answers l data) d in
  resp = error_response data e
  /\ status resp = rescue_status e
  /\ (exists pre, calls = pre ++ [Insert cols vals; Rollback]
                  /\ count_inserts pre = 0%nat)
  /\ rows d' = rows d
  /\ pending d' = [].
Proof.
  intros Hin He.
  pose proof (insert_is_planned answers l data d cols vals Hin) as Hplan.
  pose proof (submit_runs answers l data d) as Hrun.
  destruct (serve (submit answers l data) d) as [[resp d'] calls].
  cbn [snd] in Hin.
  destruct Hrun as [resp d' calls Hc _ _ _ _ | pre c v Hp Hc Hans
                    | pre c v e' Hp Hc Hans | pre c v e' Hp Hc Hans].
  - now apply count_inserts_none with (cols := cols) (vals := vals) in Hc.
  - rewrite Hplan in Hp. injection Hp as <- <-. congruence.
  - rewrite Hplan in Hp. injection Hp as <- <-.
    assert (e' = e) as -> by congruence.
    cbn. eauto 8 using error_response_rescue_status.
  - rewrite Hplan in Hp. injection Hp as <- <-. congruence.
Qed.

Lemma insert_failure_witness :
  (serve (submit (H := plain_builtins) unique_index Connected blank_email_form)
         (sample_db [blank_email_row])).1
  = (page (duplicate_page unique_violation) 400, sample_db [blank_email_row]).
Proof.
  assert (In (Insert ["username"; "email"; "age"] [VStr "ravi"; VStr ""; VNone])
             (serve (submit (H := plain_builtins) unique_index Connected
                       blank_email_form) (sample_db [blank_email_row])).2) as Hin
    by (vm_compute; tauto).
  assert (unique_index (sample_db [blank_email_row])
            (Insert ["username"; "email"; "age"] [VStr "ravi"; VStr ""; VNone])
          = Some unique_violation) as Hraise by (vm_compute; reflexivity).
  pose proof (insert_failure (H := plain_builtins) unique_index Connected
                blank_email_form (sample_db [blank_email_row]) _ _ _ Hin Hraise) as W.
  destruct (serve _ _) as [[resp d'] calls] eqn:E.
  destruct W as (-> & _). vm_compute in E. injection E as <- _. reflexivity.
Defined.

(** X6: when the INSERT is carried out but the COMMIT raises, the
    request is not reported as saved: the handler rolls back, answers
    with the page of the [except] clause of the exception, and the rows
    of the table are as they were. *)
Theorem commit_failure `{Builtins} (answers : server_behaviour) (l : link)
    (data : form) (d : database) (cols : list string) (vals : list value)
    (e : exn) :
  In (Insert cols vals) (serve (submit answers l data) d).2 ->
  answers d (Insert cols vals) = None ->
  answers (effect (Insert cols vals) d) Commit = Some e ->
  let '(resp, d', calls) := serve (submit answers l data) d in
  resp = error_response data e
  /\ status resp = rescue_status e
  /\ (exists pre, calls = pre ++ [Insert cols vals; Commit; Rollback]
                  /\ count_inserts pre = 0%nat)
  /\ rows d' = rows d
  /\ pending d' = [].
Proof.
  intros Hin Hinsert Hcommit. cbn [effect] in Hcommit. revert Hin.
  destruct l as [|err]; [|cbn; tauto].
  walk.
  all: cbn [snd]; intros Hin.
  all: try (exfalso; not_among Hin).
  all: cbn in Hin;
       repeat (destruct Hin as [Hin | Hin]; [try discriminate Hin|]);
       try contradiction.
  all: injection Hin as Hcols Hvals; subst cols vals; try congruence.
  all: match goal with
       | E : _ _ Commit = Some ?e' |- _ => assert (e' = e) as -> by congruence
       end.
  all: split; [reflexivity|]; split; [apply error_response_rescue_status|];
       split; [|split; reflexivity].
  all: first [ eexists [_; _]; split; reflexivity
             | eexists [_; _; _]; split; reflexivity
             | eexists [_; _; _; _]; split; reflexivity ].
Qed.

Lemma commit_failure_witness :
  (serve (submit (H := plain_builtins)
            (fun _ o => match o with Commit => Some operational_error | _ => None end)
            Connected sample_form) (sample_db [])).1
  = (ok_page (error_saving_page (H := plain_builtins) operational_error sample_form),
     sample_db []).
Proof.
  assert (In (Insert ["username"; "email"; "age"]
                [VStr "asha"; VStr "Asha@example.org"; VNone])
             (serve (submit (H := plain_builtins)
                       (fun _ o => match o with
                                   | Commit => Some operational_error
                                   | _ => None
                                   end)
                       Connected sample_form) (sample_db [])).2) as Hin
    by (vm_compute; tauto).
  pose proof (commit_failure (H := plain_builtins) _ Connected sample_form
                (sample_db []) _ _ operational_error Hin eq_refl eq_refl) as W.
  destruct (serve _ _) as [[resp d'] calls] eqn:E.
  destruct W as (-> & _). vm_compute in E. injection E as <- _. reflexivity.
Defined.

(** X7: [submit] is all or nothing.  The redirect to [/success] is the
    only answer with status 302, and it is given exactly when the row
    planned from the form has been added to the committed rows; with any
    other answer the committed rows are as they were. *)
Theorem saved_iff_success `{Builtins} (answers : server_behaviour) (l : link)
    (data : form) (d : database) :
  let '(resp, d', calls) := serve (submit answers l data) d in
  (status resp = 302 <-> resp = redirect "/success")
  /\ (resp = redirect "/success" ->
      rows d' = rows d ++ pending d ++ [combine (planned_insert d data).1
                                                (planned_insert d data).2]
      /\ pending d' = [])
  /\ (resp <> redirect "/success" -> rows d' = rows d)
  /\ (rows d' = rows d -> resp <> redirect "/success").
Proof.
  pose proof (submit_runs answers l data d) as Hrun.
  assert (status (serve (submit answers l data) d).1.1 = 302
          -> (serve (submit answers l data) d).1.1 = redirect "/success") as H302.
  { destruct l as [|err]; [|cbn; discriminate].
    walk.
    all: cbn; try discriminate; try reflexivity.
    all: unfold error_response; destruct (exn_cls _); cbn; discriminate. }
  destruct (serve (submit answers l data) d) as [[resp d'] calls].
  cbn [fst] in H302.
  split; [split; [exact H302 | now intros ->]|].
  destruct Hrun as [resp d' calls _ _ Hrows _ Hne | pre c v Hp _ _
                    | pre c v e Hp _ _ | pre c v e Hp _ _]; cbn [rows pending].
  - repeat split; try tauto.
  - rewrite Hp. cbn [fst snd]. repeat split; try tauto.
    intros Heq _. apply (f_equal (@length row)) in Heq.
    rewrite !length_app in Heq. cbn in Heq. lia.
  - pose proof (error_response_not_success data e). repeat split; tauto.
  - pose proof (error_response_not_success data e). repeat split; tauto.
Qed.

Lemma saved_iff_success_witness :
  rows (serve (submit (H := plain_builtins) obliging Connected sample_form)
              (sample_db [])).1.2
  = [[("username", VStr "asha"); ("email", VStr "Asha@example.org"); ("age", VNone)]].
Proof.
  pose proof (saved_iff_success (H := plain_builtins) obliging Connected
                sample_form (sample_db [])) as W.
  destruct (serve _ _) as [[resp d'] calls] eqn:E.
  assert (resp = redirect "/success") as Hresp
    by (vm_compute in E; now injection E as <- _ _).
  destruct W as (_ & Hsaved & _). cbn [fst snd].
  destruct (Hsaved Hresp) as [-> _]. vm_compute. reflexivity.
Defined.

(** ** What is inserted *)

Lemma row_get_combine_map (f : string -> value) (cols : list string) (col : string) :
  In col cols -> row_get (combine cols (map f cols)) col = f col.
Proof.
  induction cols as [|c cols IH]; cbn; [tauto|].
  intros Hin. destruct (String.eqb c col) eqn:E.
  - apply String.eqb_eq in E. now subst.
  - apply IH. destruct Hin as [-> | Hin]; [|assumption].
    now rewrite String.eqb_refl in E.
Qed.

Lemma row_get_combine_absent (cols : list string) (vals : list value) (col : string) :
  ~ In col cols -> row_get (combine cols vals) col = VNone.
Proof.
  revert vals. induction cols as [|c cols IH]; intros [|v vals] Hout; cbn;
    try reflexivity.
  destruct (String.eqb c col) eqn:E.
  - apply String.eqb_eq in E. subst. exfalso. apply Hout. now left.
  - apply IH. intros Hin. apply Hout. now right.
Qed.

Lemma candidate_other `{Builtins} (d : database) (data : form) (col : string) :
  col <> "user_id" ->
  candidate (candidates_for d data) col
  = default VNone (candidates_of (collect data) !! col).
Proof.
  intros Hcol. unfold candidate, candidates_for, fill_user_id.
  destruct (schema_of d !! "user_id"); [|reflexivity].
  now rewrite lookup_insert_ne by congruence.
Qed.

Ltac candidate_lookup :=
  rewrite candidate_other by discriminate;
  unfold candidates_of, dict_of; cbn [fold_left fst snd];
  repeat (rewrite lookup_insert_ne by discriminate);
  rewrite lookup_insert_eq; reflexivity.

(** The candidates of the text columns are the values read from the
    form, as they are. *)
Lemma text_candidates `{Builtins} (d : database) (data : form) :
  candidate (candidates_for d data) "full_name" = of_str (full_name (collect data))
  /\ candidate (candidates_for d data) "username" = of_str (username (collect data))
  /\ candidate (candidates_for d data) "password_hash"
     = of_str (password_hash (collect data))
  /\ candidate (candidates_for d data) "email" = of_str (form_get data "email")
  /\ candidate (candidates_for d data) "phone" = of_str (form_get data "phone")
  /\ candidate (candidates_for d data) "father_name"
     = of_str (father_name (collect data))
  /\ candidate (candidates_for d data) "mother_name"
     = of_str (mother_name (collect data))
  /\ candidate (candidates_for d data) "address" = of_str (form_get data "address").
Proof. repeat split; candidate_lookup. Qed.

(** Every INSERT binds each listed column to its candidate. *)
Lemma insert_binds_candidates `{Builtins} (answers : server_behaviour) (l : link)
    (data : form) (d : database) (cols : list string) (vals : list value)
    (col : string) :
  In (Insert cols vals) (serve (submit answers l data) d).2 ->
  In col cols ->
  row_get (combine cols vals) col = candidate (candidates_for d data) col.
Proof.
  intros Hin Hcol. apply insert_is_planned in Hin.
  rewrite planned_insert_filter in Hin.
  apply pair_equal_spec in Hin as [Hcols Hvals].
  rewrite <- Hvals, Hcols. now apply row_get_combine_map.
Qed.

(** X8: what [submit] sends to the database is what was typed.  In
    every INSERT it makes, the email, when listed, is the [email] field
    of the form unchanged (not lower-cased, although it is compared up to
    case), [password_hash] is the [password_hash] or [password] field
    unchanged (the handler does no hashing), and likewise for the other
    text columns; a column that is not listed has no value in the row. *)
Theorem submitted_text_is_stored_unchanged `{Builtins} (answers : server_behaviour)
    (l : link) (data : form) (d : database)
    (cols : list string) (vals : list value) :
  In (Insert cols vals) (serve (submit answers l data) d).2 ->
  (In "email" cols -> row_get (combine cols vals) "email" = of_str (form_get data "email"))
  /\ (In "password_hash" cols ->
      row_get (combine cols vals) "password_hash"
      = of_str (first_of data ["password_hash"; "password"]))
  /\ (In "username" cols ->
      row_get (combine cols vals) "username"
      = of_str (first_of data ["username"; "user"]))
  /\ (In "full_name" cols ->
      row_get (combine cols vals) "full_name"
      = of_str (first_of data ["full_name"; "name"; "fullname"; "fullName"]))
  /\ (In "phone" cols -> row_get (combine cols vals) "phone" = of_str (form_get data "phone"))
  /\ (In "address" cols ->
      row_get (combine cols vals) "address" = of_str (form_get data "address"))
  /\ (In "father_name" cols ->
      row_get (combine cols vals) "father_name"
      = of_str (first_of data ["father_name"; "father"]))
  /\ (In "mother_name" cols ->
      row_get (combine cols vals) "mother_name"
      = of_str (first_of data ["mother_name"; "mother"]))
  /\ (forall col, ~ In col cols -> row_get (combine cols vals) col = VNone).
Proof.
  intros Hin.
  destruct (text_candidates d data) as (Hfull & Huser & Hpass & Hemail & Hphone
                                        & Hfather & Hmother & Haddress).
  repeat split; try (intros Hcol; rewrite (insert_binds_candidates _ _ _ _ _ _ _ Hin Hcol)).
  all: try assumption.
  intros col Hout. now apply row_get_combine_absent.
Qed.

Lemma submitted_text_is_stored_unchanged_witness :
  row_get (combine ["username"; "email"; "age"]
                   [VStr "asha"; VStr "Asha@example.org"; VNone]) "email"
  = VStr "Asha@example.org".
Proof.
  assert (In (Insert ["username"; "email"; "age"]
                [VStr "asha"; VStr "Asha@example.org"; VNone])
             (serve (submit (H := plain_builtins) obliging Connected sample_form)
                    (sample_db [])).2) as Hin by (vm_compute; tauto).
  destruct (submitted_text_is_stored_unchanged (H := plain_builtins) obliging
              Connected sample_form (sample_db []) _ _ Hin) as (Hemail & _).
  apply Hemail. cbn. tauto.
Defined.

Lemma in_spec_insert_columns (schema : gmap string (option string))
    (candidates : gmap string value) (colmeta : gmap string meta) (col : string) :
  In col (spec_insert_columns schema candidates colmeta)
  <-> In col desired_order /\ inserted schema candidates colmeta col = true.
Proof. unfold spec_insert_columns. apply filter_In. Qed.

(** A column of the fixed list that the table has and for which there
    is a value is inserted. *)
Lemma valued_column_is_inserted `{Builtins} (d : database) (data : form)
    (col : string) :
  In col desired_order ->
  is_Some (schema_of d !! col) ->
  candidate (candidates_for d data) col <> VNone ->
  In col (planned_insert d data).1.
Proof.
  intros Horder Hschema Hvalue. rewrite planned_insert_filter. cbn [fst].
  apply in_spec_insert_columns. split; [assumption|].
  unfold inserted. rewrite bool_decide_eq_true_2 by assumption.
  destruct (candidate (candidates_for d data) col); [contradiction|reflexivity..].
Qed.

(** X9: when the [user_id] column is not an integer column (the type
    in the catalogue does not contain ['int'], or is missing), the
    [user_id] is the [user_id] field of the form if it is not empty and
    the username otherwise; when either is present, [user_id] is among
    the columns and every INSERT made binds that text to it. *)
Theorem text_user_id_falls_back_to_username `{Builtins} (d : database)
    (data : form) (t : option string) :
  schema_of d !! "user_id" = Some t ->
  contains "int" (default "" t) = false ->
  candidate (candidates_for d data) "user_id"
  = of_str (first_of data ["user_id"; "username"; "user"])
  /\ forall v,
       first_of data ["user_id"; "username"; "user"] = Some v ->
       In "user_id" (planned_insert d data).1
       /\ forall answers l cols vals,
            In (Insert cols vals) (serve (submit answers l data) d).2 ->
            row_get (combine cols vals) "user_id" = VStr v.
Proof.
  intros Hschema Htype.
  assert (candidate (candidates_for d data) "user_id"
          = of_str (first_of data ["user_id"; "username"; "user"])) as Hcand.
  { rewrite (candidate_user_id d data t Hschema).
    unfold user_id_candidate. now rewrite Htype. }
  split; [assumption|]. intros v Hv. rewrite Hv in Hcand.
  assert (In "user_id" (planned_insert d data).1) as Hin.
  { apply valued_column_is_inserted; [cbn; tauto | eauto |].
    rewrite Hcand. discriminate. }
  split; [assumption|]. intros answers l cols vals Hcall.
  rewrite (insert_binds_candidates _ _ _ _ _ _ "user_id" Hcall); [assumption|].
  apply insert_is_planned in Hcall. now rewrite Hcall in Hin.
Qed.

Lemma text_user_id_falls_back_to_username_witness :
  In "user_id" (planned_insert (H := plain_builtins) (table_of text_id_columns)
                  [("username", "asha"); ("user_id", "")]).1
  /\ candidate (candidates_for (H := plain_builtins) (table_of text_id_columns)
                  [("username", "asha"); ("user_id", "")]) "user_id"
     = VStr "asha".
Proof.
  destruct (text_user_id_falls_back_to_username (H := plain_builtins)
              (table_of text_id_columns) [("username", "asha"); ("user_id", "")]
              (Some "character varying")) as [Hcand Hins].
  - vm_compute. reflexivity.
  - reflexivity.
  - split; [|exact Hcand]. now apply (Hins "asha").
Defined.

(** X10: an [age] that is an integer literal is read as that integer
    and, when the table has an [age] column, it is among the columns and
    every INSERT made binds the integer to it. *)
Theorem parsed_age_is_inserted `{Builtins} (d : database) (data : form)
    (s : string) (n : Z) :
  form_get data "age" = Some s ->
  s <> "" ->
  py_int s = Some n ->
  parse_age data = Some n
  /\ candidate (candidates_for d data) "age" = VInt n
  /\ (is_Some (schema_of d !! "age") ->
      In "age" (planned_insert d data).1
      /\ forall answers l cols vals,
           In (Insert cols vals) (serve (submit answers l data) d).2 ->
           row_get (combine cols vals) "age" = VInt n).
Proof.
  intros Hage Hne Hint.
  assert (parse_age data = Some n) as Hparse.
  { unfold parse_age. rewrite Hage, Hint.
    replace (truthy (Some s)) with true; [reflexivity|].
    symmetry. apply truthy_nonempty. eauto. }
  assert (candidate (candidates_for d data) "age" = VInt n) as Hcand
    by (now rewrite candidate_age, Hparse).
  repeat split; try assumption.
  - apply valued_column_is_inserted; [cbn; tauto | assumption |].
    rewrite Hcand. discriminate.
  - intros answers l cols vals Hcall.
    rewrite (insert_binds_candidates _ _ _ _ _ _ "age" Hcall); [assumption|].
    pose proof Hcall as Hplan. apply insert_is_planned in Hplan.
    assert (In "age" (planned_insert d data).1) as Hin.
    { apply valued_column_is_inserted; [cbn; tauto | assumption |].
      rewrite Hcand. discriminate. }
    now rewrite Hplan in Hin.
Qed.

Lemma parsed_age_is_inserted_witness :
  parse_age (H := plain_builtins) [("username", "asha"); ("age", "12")] = Some 12
  /\ In "age" (planned_insert (H := plain_builtins) (sample_db [])
                 [("username", "asha"); ("age", "12")]).1.
Proof.
  destruct (parsed_age_is_inserted (H := plain_builtins) (sample_db [])
              [("username", "asha"); ("age", "12")] "12" 12)
    as (Hparse & _ & Hins); try reflexivity; [discriminate|].
  split; [exact Hparse|]. apply Hins. vm_compute. eauto.
Defined.

(** ** The shape of the INSERT *)

Lemma desired_order_distinct : List.NoDup desired_order.
Proof. apply NoDup_ListNoDup, (bool_decide_unpack _). vm_compute. reflexivity. Qed.

(** X11: the INSERT that [submit] plans is well formed.  No column is
    listed twice, there is one value, hence one placeholder, per
    column, and each column is one of the ten of the fixed list that the
    catalogue has. *)
Theorem planned_insert_is_well_formed `{Builtins} (d : database) (data : form) :
  List.NoDup (planned_insert d data).1
  /\ length (planned_insert d data).2 = length (planned_insert d data).1
  /\ (length (planned_insert d data).1 <= 10)%nat
  /\ (forall col, In col (planned_insert d data).1 ->
        In col desired_order /\ is_Some (schema_of d !! col))
  /\ insert_sql (planned_insert d data).1 (planned_insert d data).2
     = "INSERT INTO registration (" +:+ join ", " (planned_insert d data).1
       +:+ ") VALUES ("
       +:+ join "," (repeat "%s" (length (planned_insert d data).1)) +:+ ")".
Proof.
  rewrite planned_insert_filter. cbn [fst snd].
  assert (length (map (candidate (candidates_for d data))
                      (spec_insert_columns (schema_of d) (candidates_for d data)
                         (colmeta_in d)))
          = length (spec_insert_columns (schema_of d) (candidates_for d data)
                      (colmeta_in d))) as Hlen by apply length_map.
  split; [|split; [|split; [|split]]].
  - apply List.NoDup_filter. exact desired_order_distinct.
  - exact Hlen.
  - unfold spec_insert_columns.
    etransitivity; [apply List.filter_length_le|]. cbn. lia.
  - intros col Hin. apply in_spec_insert_columns in Hin as [Horder Hkeep].
    split; [assumption|]. unfold inserted in Hkeep.
    apply andb_true_iff in Hkeep as [Hschema _].
    now apply bool_decide_eq_true in Hschema.
  - unfold insert_sql. now rewrite Hlen.
Qed.

(** ** Required columns, in order *)








(** ** The other views *)

(** X14: [/db_status] answers 200 "DB OK" exactly when the module is
    connected and [SELECT 1] is carried out, and 500 otherwise; it sends
    nothing when there is no connection, at most the one query when
    there is, and it leaves the database as it was. *)
Theorem db_status_reports_the_connection (answers : server_behaviour) (l : link)
    (d : database) :
  let '(resp, d', calls) := serve (db_status answers l) d in
  d' = d
  /\ (resp = page "DB OK" 200 <-> l = Connected /\ answers d SelectOne = None)
  /\ (status resp = 200 \/ status resp = 500)
  /\ (status resp = 200 -> resp = page "DB OK" 200)
  /\ (l = Connected -> calls = [SelectOne])
  /\ (l <> Connected -> calls = []).
Proof.
  destruct l as [|err]; [walk|cbn].
  all: repeat split; auto; try discriminate; try tauto.
  all: intros [? ?]; congruence.
Qed.

Lemma submit_keeps_catalogue `{Builtins} (answers : server_behaviour) (l : link)
    (data : form) (d : database) :
  columns (serve (submit answers l data) d).1.2 = columns d.
Proof.
  pose proof (submit_runs answers l data d) as Hrun.
  destruct (serve (submit answers l data) d) as [[resp d'] calls].
  now destruct Hrun.
Qed.

Lemma submit_not_connected `{Builtins} (answers : server_behaviour)
    (err : string) (data : form) (d : database) :
  serve (submit answers (NotConnected err) data) d
  = (page (not_connected_page err) 500, d, []).
Proof. reflexivity. Qed.

(** X15: each view keeps to its own state.  No request changes the
    connection, the template or the catalogue; only [/submit] can change
    the table, only a POST to [/login] and [/logout] can change the
    session, only [/submit] and [/db_status] call the database, and
    without a connection no view calls it at all. *)
Theorem views_keep_to_their_state `{Builtins} (answers : server_behaviour)
    (w : world) (req : request) :
  let '(resp, w', calls) := handle answers w req in
  connection w' = connection w
  /\ template w' = template w
  /\ columns (store w') = columns (store w)
  /\ (is_submit req = false -> store w' = store w)
  /\ (user_session w' <> user_session w ->
      req = ReqLogout \/ exists data, req = ReqLogin POST data)
  /\ (calls <> [] -> is_submit req = true \/ req = ReqDbStatus)
  /\ (forall err, connection w = NotConnected err ->
        calls = [] /\ store w' = store w).
Proof.
  destruct req as [m data| | |data| | |]; cbn [handle].
  - destruct m; cbn; repeat split; auto; try tauto; eauto.
  - cbn. repeat split; auto; tauto.
  - cbn. repeat split; auto; tauto.
  - pose proof (submit_keeps_catalogue answers (connection w) data (store w)) as Hcat.
    pose proof (fun err => submit_not_connected answers err data (store w)) as Hoff.
    destruct (connection w) as [|err'] eqn:Hlink.
    + destruct (serve (submit answers Connected data) (store w)) as [[resp d'] calls].
      cbn in *. repeat split; auto; try tauto; try discriminate.
    + rewrite Hoff. cbn. repeat split; auto; tauto.
  - cbn. repeat split; auto; tauto.
  - cbn. repeat split; auto; tauto.
  - pose proof (db_status_reads_only answers (connection w) (store w)) as Hs.
    destruct (connection w) as [|err'] eqn:Hlink.
    + destruct (serve (db_status answers Connected) (store w)) as [[resp d'] calls].
      destruct Hs as [-> _]. cbn. rewrite Hlink.
      repeat split; auto; try tauto; try discriminate.
    + cbn. rewrite Hlink. repeat split; auto; tauto.
Qed.

Lemma views_keep_to_their_state_witness :
  store (handle (H := plain_builtins) obliging
           {| connection := Connected; store := sample_db [asha_row];
              user_session := ∅; template := TemplateNotFound |}
           (ReqLogin POST [("username", "asha")])).1.2
  = sample_db [asha_row].
Proof.
  pose proof (views_keep_to_their_state (H := plain_builtins) obliging
                {| connection := Connected; store := sample_db [asha_row];
                   user_session := ∅; template := TemplateNotFound |}
                (ReqLogin POST [("username", "asha")])) as W.
  destruct (handle _ _ _) as [[resp w'] calls].
  destruct W as (_ & _ & _ & Hstore & _). exact (Hstore eq_refl).
Defined.

(** X16: [/logout] forgets the user and nothing else.  After it the
    session has no [user], every other key is as before; with no user in
    the session it changes nothing (no [KeyError]); and it undoes a
    login: logging out after a POST to [/login] leaves the session as
    logging out at once would. *)
Theorem logout_forgets_the_user (s : session) (data : form) :
  (logout s).1 = redirect "/"
  /\ (logout s).2 !! "user" = None
  /\ (forall k, k <> "user" -> (logout s).2 !! k = s !! k)
  /\ (s !! "user" = None -> (logout s).2 = s)
  /\ (logout (login POST data s).2).2 = (logout s).2
  /\ (s !! "user" = None -> (logout (login POST data s).2).2 = s).
Proof.
  cbn. repeat split.
  - apply lookup_delete_eq.
  - intros k Hk. now apply lookup_delete_ne.
  - apply delete_id.
  - apply delete_insert_eq.
  - intros Hs. etransitivity; [apply delete_insert_eq | now apply delete_id].
Qed.

Lemma logout_forgets_the_user_witness :
  (logout (login POST [("username", "asha")] (∅ : session)).2).2 = ∅.
Proof.
  apply (logout_forgets_the_user ∅ [("username", "asha")]). reflexivity.
Defined.

(** ** The table over a run *)

Lemma handle_keeps_store `{Builtins} (answers : server_behaviour) (w : world)
    (req : request) :
  is_submit req = false -> store (handle answers w req).1.2 = store w.
Proof.
  destruct req as [m data| | |data| | |]; cbn [handle is_submit];
    try discriminate; intros _.
  - now destruct m.
  - reflexivity.
  - reflexivity.
  - reflexivity.
  - reflexivity.
  - pose proof (db_status_reads_only answers (connection w) (store w)) as Hs.
    destruct (serve (db_status answers (connection w)) (store w)) as [[resp d'] calls].
    destruct Hs as [-> _]. now destruct w.
Qed.

(** X17: only [/submit] adds rows.  Over a run of requests the table
    grows by at most one row per request to [/submit], whatever the
    other requests are; a run without any request to [/submit] leaves the
    database exactly as it was. *)
Theorem only_submit_adds_rows `{Builtins} (w : world)
    (reqs : list (server_behaviour * request)) :
  (count_submits reqs = 0%nat -> store (run w reqs) = store w)
  /\ (pending (store w) = [] ->
      (length (rows (store (run w reqs)))
       <= length (rows (store w)) + count_submits reqs)%nat).
Proof.
  split.
  - revert w. induction reqs as [|[answers req] reqs IH]; intros w; [reflexivity|].
    cbn [count_submits run]. destruct (is_submit req) eqn:Hreq; [lia|].
    intros Hrest. rewrite IH by lia. now apply handle_keeps_store.
  - revert w. induction reqs as [|[answers req] reqs IH]; intros w Hp; [cbn; lia|].
    cbn [count_submits run].
    destruct (handle_appends answers w req Hp) as [Hrows Hp'].
    specialize (IH _ Hp').
    destruct (is_submit req) eqn:Hreq.
    + destruct Hrows as [Hrows | (r & Hrows)]; rewrite Hrows in IH;
        rewrite ?length_app in IH; cbn in IH; lia.
    + rewrite (handle_keeps_store answers w req Hreq) in IH. lia.
Qed.

Lemma only_submit_adds_rows_witness :
  store (run (H := plain_builtins)
           {| connection := Connected; store := sample_db [asha_row];
              user_session := ∅; template := TemplateNotFound |}
           [(obliging, ReqLogin POST [("username", "nobody")]);
            (obliging, ReqDbStatus); (obliging, ReqLogout)])
  = sample_db [asha_row].
Proof.
  apply (only_submit_adds_rows (H := plain_builtins)
           {| connection := Connected; store := sample_db [asha_row];
              user_session := ∅; template := TemplateNotFound |}
           [(obliging, ReqLogin POST [("username", "nobody")]);
            (obliging, ReqDbStatus); (obliging, ReqLogout)]).
  reflexivity.
Defined.

(** ** The two dicts of the catalogue *)

Lemma dict_of_snoc {V} (pairs : list (string * V)) (k : string) (v : V) :
  dict_of (pairs ++ [(k, v)]) = <[k := v]> (dict_of pairs).
Proof. unfold dict_of. now rewrite fold_left_app. Qed.

Lemma dict_of_keys {V} (pairs : list (string * V)) (k : string) :
  is_Some (dict_of pairs !! k) <-> In k (map fst pairs).
Proof.
  induction pairs as [|[k' v] pairs IH] using rev_ind.
  - cbn. split; [intros [x Hx]; discriminate | tauto].
  - rewrite dict_of_snoc, map_app, in_app_iff. cbn.
    destruct (decide (k' = k)) as [-> | Hne].
    + rewrite lookup_insert_eq. split; eauto.
    + rewrite lookup_insert_ne by assumption. rewrite IH. intuition congruence.
Qed.

(** The row that counts for a key is the last one that has it. *)
Lemma dict_of_last {V} (before after : list (string * V)) (k : string) (v : V) :
  ~ In k (map fst after) ->
  dict_of (before ++ (k, v) :: after) !! k = Some v.
Proof.
  induction after as [|[k' v'] after IH] using rev_ind; intros Hout.
  - rewrite dict_of_snoc. apply lookup_insert_eq.
  - rewrite app_comm_cons, app_assoc, dict_of_snoc.
    rewrite map_app, in_app_iff in Hout. cbn in Hout.
    rewrite lookup_insert_ne by tauto. apply IH. tauto.
Qed.

(** X18: the two dicts built from the catalogue have the same keys,
    the names of the catalogue rows, so that [colmeta.get(col)] is never
    [None] for a column of [schema]; and when several catalogue rows
    have the same name (a table [registration] in more than one schema),
    both dicts keep the type, nullability and default of the last
    one. *)
Theorem catalogue_dicts_agree (d : database) (col : string) :
  (is_Some (schema_of d !! col) <-> In col (map column_name (columns d)))
  /\ (is_Some (colmeta_in d !! col) <-> is_Some (schema_of d !! col))
  /\ forall before c after,
       columns d = before ++ c :: after ->
       ~ In (column_name c) (map column_name after) ->
       schema_of d !! column_name c = Some (data_type c)
       /\ colmeta_in d !! column_name c
          = Some {| meta_is_nullable := is_nullable c;
                    meta_default := column_default c |}.
Proof.
  assert (forall cs : list column,
            map fst (map (fun c => (column_name c, data_type c)) cs)
            = map column_name cs) as Hkeys1
    by (intros cs; rewrite map_map; reflexivity).
  assert (forall cs : list column,
            map fst (map (fun r : string * (string * option string) =>
                            (r.1, {| meta_is_nullable := r.2.1;
                                     meta_default := r.2.2 |}))
                         (map (fun c => (column_name c,
                                         (is_nullable c, column_default c))) cs))
            = map column_name cs) as Hkeys2
    by (intros cs; rewrite !map_map; reflexivity).
  unfold schema_of, colmeta_in, colmeta_of.
  split; [|split].
  - now rewrite dict_of_keys, Hkeys1.
  - now rewrite !dict_of_keys, Hkeys1, Hkeys2.
  - intros before c after -> Hlast. split.
    + rewrite map_app. cbn [map]. apply dict_of_last. now rewrite Hkeys1.
    + rewrite !map_app. cbn [map fst snd]. apply dict_of_last. now rewrite Hkeys2.
Qed.

Lemma catalogue_dicts_agree_witness :
  schema_of (table_of [age_as_text; age_as_integer]) !! "age" = Some (Some "integer")
  /\ has_default (colmeta_in (table_of [age_as_text; age_as_integer]) !! "age") = true.
Proof.
  destruct (catalogue_dicts_agree (table_of [age_as_text; age_as_integer]) "age")
    as (_ & _ & Hlast).
  destruct (Hlast [age_as_text] age_as_integer []) as [Hschema Hmeta].
  - reflexivity.
  - intros [].
  - split; [exact Hschema|]. cbn [column_name age_as_integer] in Hmeta.
    now rewrite Hmeta.
Defined.

(** ** A registration that goes through *)





(** ** Rollbacks *)

(** X20: a ROLLBACK that fails changes neither the answer nor the
    calls: each [conn.rollback()] is in its own [try], so [submit]
    answers and calls the database exactly as it would on the same
    server with every ROLLBACK succeeding. *)
Theorem failed_rollback_is_ignored `{Builtins} (answers : server_behaviour)
    (l : link) (data : form) (d : database) :
  (serve (submit answers l data) d).1.1
  = (serve (submit (with_sound_rollback answers) l data) d).1.1
  /\ (serve (submit answers l data) d).2
     = (serve (submit (with_sound_rollback answers) l data) d).2.
Proof.
  destruct l as [|err]; [|split; reflexivity].
  unfold with_sound_rollback. walk.
  all: split; reflexivity.
Qed.

(** ** Registering twice *)

(** X21: on an integer [user_id] column, a [user_id] field that is an
    integer literal is used as it is: it is among the columns, in place
    of the default of the column, and every INSERT made binds that
    integer to it. *)
Theorem explicit_user_id_is_inserted `{Builtins} (d : database) (data : form)
    (t : option string) (s : string) (n : Z) :
  schema_of d !! "user_id" = Some t ->
  contains "int" (default "" t) = true ->
  form_get data "user_id" = Some s ->
  py_int s = Some n ->
  candidate (candidates_for d data) "user_id" = VInt n
  /\ In "user_id" (planned_insert d data).1
  /\ forall answers l cols vals,
       In (Insert cols vals) (serve (submit answers l data) d).2 ->
       row_get (combine cols vals) "user_id" = VInt n.
Proof.
  intros Hschema Htype Hraw Hint.
  assert (candidate (candidates_for d data) "user_id" = VInt n) as Hcand.
  { rewrite (candidate_user_id d data t Hschema).
    unfold user_id_candidate. rewrite Htype. cbn [raw_user_id collect].
    now rewrite Hraw, Hint. }
  assert (In "user_id" (planned_insert d data).1) as Hin.
  { apply valued_column_is_inserted; [cbn; tauto | eauto |].
    rewrite Hcand. discriminate. }
  repeat split; try assumption.
  intros answers l cols vals Hcall.
  rewrite (insert_binds_candidates _ _ _ _ _ _ "user_id" Hcall); [assumption|].
  apply insert_is_planned in Hcall. now rewrite Hcall in Hin.
Qed.

Lemma explicit_user_id_is_inserted_witness :
  In "user_id" (planned_insert (H := plain_builtins) (sample_db [])
                  [("username", "asha"); ("user_id", "41")]).1
  /\ candidate (candidates_for (H := plain_builtins) (sample_db [])
                  [("username", "asha"); ("user_id", "41")]) "user_id" = VInt 41.
Proof.
  destruct (explicit_user_id_is_inserted (H := plain_builtins) (sample_db [])
              [("username", "asha"); ("user_id", "41")] (Some "integer") "41" 41)
    as (Hcand & Hin & _); try reflexivity.
  split; assumption.
Defined.

(** X22: a registration with an email is not saved twice.  Once
    [submit] has answered a form whose email is not empty with the
    redirect to [/success], on a table that has an [email] column, the
    same form sent again is answered 409 "Email already registered" and
    adds no row, provided the second lookup is answered, whatever the
    case in which the email is typed the second time. *)
Theorem second_registration_is_refused `{Builtins}
    (answers answers' : server_behaviour) (data data' : form) (d : database)
    (e e' : string) :
  is_Some (schema_of d !! "email") ->
  form_get data "email" = Some e ->
  (serve (submit answers Connected data) d).1.1 = redirect "/success" ->
  form_get data' "email" = Some e' ->
  e' <> "" ->
  lower e' = lower e ->
  answers' (serve (submit answers Connected data) d).1.2 SelectSchema = None ->
  answers' (serve (submit answers Connected data) d).1.2 SelectMeta = None ->
  answers' (serve (submit answers Connected data) d).1.2 (SelectEmail e') = None ->
  let d1 := (serve (submit answers Connected data) d).1.2 in
  let '(resp, d2, calls) := serve (submit answers' Connected data') d1 in
  resp = page (email_taken_page e') 409
  /\ rows d2 = rows d1
  /\ count_inserts calls = 0%nat.
Proof.
  intros Hcolumn Hemail Hsaved Hemail' Hne Hsame Hschema Hmeta Hlookup.
  assert (exists r, In r (visible (serve (submit answers Connected data) d).1.2)
                    /\ email_matches e' r = true) as Hrow.
  { pose proof (submit_runs answers Connected data d) as Hrun.
    destruct (serve (submit answers Connected data) d) as [[resp d1] calls].
    cbn [fst snd] in *.
    destruct Hrun as [resp d1 calls _ _ _ _ Hno | pre cols vals Hplan _ _
                      | pre cols vals x _ _ _ | pre cols vals x _ _ _].
    - contradiction.
    - exists (combine cols vals). split.
      + unfold visible. cbn. rewrite !in_app_iff. cbn. tauto.
      + rewrite planned_insert_filter in Hplan.
        apply pair_equal_spec in Hplan as [Hcols Hvals].
        assert (candidate (candidates_for d data) "email" = VStr e) as Hcand.
        { destruct (text_candidates d data) as (_ & _ & _ & -> & _).
          now rewrite Hemail. }
        assert (In "email" cols) as Hin.
        { rewrite <- Hcols. apply in_spec_insert_columns. split; [cbn; tauto|].
          unfold inserted. rewrite bool_decide_eq_true_2 by assumption.
          now rewrite Hcand. }
        unfold email_matches. rewrite <- Hvals, Hcols.
        rewrite (row_get_combine_map _ _ _ Hin), Hcand, Hsame.
        apply String.eqb_refl.
    - now apply error_response_not_success in Hsaved.
    - now apply error_response_not_success in Hsaved. }
  cbv zeta.
  rewrite (email_lookup_hit answers' data' _ e' Hschema Hmeta Hemail' Hne Hlookup Hrow).
  cbn. auto.
Qed.

Lemma second_registration_is_refused_witness :
  (serve (submit (H := plain_builtins) obliging Connected
            [("username", "asha"); ("email", "ASHA@EXAMPLE.ORG")])
         (serve (submit (H := plain_builtins) obliging Connected sample_form)
                (sample_db [])).1.2).1.1
  = page (email_taken_page "ASHA@EXAMPLE.ORG") 409.
Proof.
  assert (is_Some (schema_of (sample_db []) !! "email")) as Hcolumn
    by (vm_compute; eauto).
  assert ((serve (submit (H := plain_builtins) obliging Connected sample_form)
                 (sample_db [])).1.1 = redirect "/success") as Hsaved
    by (vm_compute; reflexivity).
  assert ("ASHA@EXAMPLE.ORG" <> "") as Hne by discriminate.
  pose proof (second_registration_is_refused (H := plain_builtins) obliging obliging
                sample_form [("username", "asha"); ("email", "ASHA@EXAMPLE.ORG")]
                (sample_db []) "Asha@example.org" "ASHA@EXAMPLE.ORG"
                Hcolumn eq_refl Hsaved eq_refl Hne eq_refl eq_refl eq_refl eq_refl)
    as W.
  cbv zeta in W.
  destruct (serve (submit (H := plain_builtins) obliging Connected
                     [("username", "asha"); ("email", "ASHA@EXAMPLE.ORG")]) _)
    as [[resp d2] calls].
  apply W.
Defined.
